(** * Point-of-sale backend and client forms: a shallow embedding

    The backend is the ASP.NET minimal-API program (product and transaction
    endpoints over an EF Core context); the client is the set of React Native
    screens (add/edit product forms, the POS checkout).  C# [int] is a 32-bit
    two's complement integer, modelled as [Z] with the wrap-around written
    out; C# [double] and JavaScript numbers are IEEE 754 binary64, modelled by
    the primitive type [float]; [DateTime] is a tick count in [Z]. *)

From Stdlib Require Import ZArith List String Ascii Bool Lia Floats Permutation Sorted.
Import ListNotations.
Local Open Scope string_scope.
Local Open Scope Z_scope.

(** ** C# primitives used by the handlers *)

Module CSharp.

(** [int]: arithmetic is unchecked, results wrap into [-2^31, 2^31). *)
Definition wrap32 (x : Z) : Z := (x + 2147483648) mod 4294967296 - 2147483648.
Definition int_add (a b : Z) : Z := wrap32 (a + b).
Definition int_sub (a b : Z) : Z := wrap32 (a - b).
Definition int_range (x : Z) : Prop := -2147483648 <= x < 2147483648.

Definition digit (d : Z) : ascii := ascii_of_N (48 + Z.to_N d).

(** Decimal digits of a non-negative number, most significant first, pushed
    in front of [acc]; an [int] has at most ten of them. *)
Fixpoint digits (fuel : nat) (n : Z) (acc : string) : string :=
  match fuel with
  | O => acc
  | S fuel' =>
      let acc' := String (digit (n mod 10)) acc in
      if n / 10 =? 0 then acc' else digits fuel' (n / 10) acc'
  end.

Definition decimal (n : Z) : string := digits 10 n "".

Fixpoint zeros (k : nat) : string :=
  match k with
  | O => ""
  | S k' => String "0" (zeros k')
  end.

Definition pad_left (width : nat) (s : string) : string :=
  zeros (width - String.length s) ++ s.

(** [n.ToString()] *)
Definition ToString (n : Z) : string :=
  if n <? 0 then "-" ++ decimal (- n) else decimal n.

(** The custom numeric format [{n:000000}]: at least six digits, padded
    with zeros on the left, a minus sign in front of a negative number. *)
Definition format_000000 (n : Z) : string :=
  if n <? 0 then "-" ++ pad_left 6 (decimal (- n)) else pad_left 6 (decimal n).

(** [DateTime] as ticks of 100 ns; [d.Date] drops the time of day. *)
Definition DateTime := Z.
Definition TicksPerDay : Z := 864000000000.
Definition Date (d : DateTime) : DateTime := d - d mod TicksPerDay.

(** [a ?? b] *)
Definition coalesce {A : Type} (a : option A) (b : option A) : option A :=
  match a with
  | Some _ => a
  | None => b
  end.

End CSharp.

(** ** The backend: models, context and endpoints *)

Module Product.
(** [string] properties are references and may hold [null] at run time
    ([None]); the update endpoint tests them with [??]. *)
Record t : Type := mk {
  Id : Z;
  Name : option string;
  Description : option string;
  Price : float;
  Stock : Z;
  Category : option string;
  Image : option string;
  IsActive : bool;
  CreatedAt : CSharp.DateTime;
  UpdatedAt : CSharp.DateTime
}.
End Product.

Module TransactionItem.
Record t : Type := mk {
  Id : Z;
  TransactionId : Z;
  ProductId : Z;
  ProductName : option string;
  Price : float;
  Quantity : Z;
  Total : float
}.
End TransactionItem.

Module Transaction.
Record t : Type := mk {
  Id : Z;
  TransactionNumber : string;
  CreatedAt : CSharp.DateTime;
  Status : string;
  Subtotal : float;
  Tax : float;
  Discount : float;
  Total : float;
  PaymentMethod : option string;
  CustomerName : option string;
  Notes : option string;
  Items : list TransactionItem.t
}.
End Transaction.

Module Backend.
Import CSharp.

(** What a handler returns: [Results.Ok], [Results.Created], [Results.NotFound]. *)
Inductive IResult (A : Type) : Type :=
| Ok (value : A)
| Created (uri : string) (value : A)
| NotFound.
Arguments Ok {A} value.
Arguments Created {A} uri value.
Arguments NotFound {A}.

(** The context: the rows of each table in insertion order, and the last
    identity value the store issued for each key column.  [SaveChangesAsync]
    is the return of the new context; storage failures are not modelled. *)
Record AppDbContext : Type := mkDb {
  Products : list Product.t;
  Transactions : list Transaction.t;
  ProductKey : Z;
  TransactionKey : Z;
  TransactionItemKey : Z
}.

(** A JSON property of a request body: missing, [null], or a value. *)
Inductive json (A : Type) : Type :=
| Missing
| Null
| Val (a : A).
Arguments Missing {A}.
Arguments Null {A}.
Arguments Val {A} a.

Record ProductBody : Type := mkBody {
  name : json string;
  description : json string;
  price : option float;
  stock : option Z;
  category : json string;
  image : json string;
  isActive : option bool
}.

(** Body binding: a property missing from the JSON keeps the value its
    initializer gave it ([Name = ""], [Category = "General"],
    [IsActive = true], zero for numbers, [null] for [Image]). *)
Definition bind_string (init : option string) (j : json string) : option string :=
  match j with
  | Missing => init
  | Null => None
  | Val s => Some s
  end.

Definition bind_Product (now : DateTime) (b : ProductBody) : Product.t :=
  {| Product.Id := 0;
     Product.Name := bind_string (Some "") (name b);
     Product.Description := bind_string (Some "") (description b);
     Product.Price := match price b with Some x => x | None => 0%float end;
     Product.Stock := match stock b with Some x => x | None => 0 end;
     Product.Category := bind_string (Some "General") (category b);
     Product.Image := bind_string None (image b);
     Product.IsActive := match isActive b with Some x => x | None => true end;
     Product.CreatedAt := now;
     Product.UpdatedAt := now |}.

(** [db.Products.FindAsync(id)] *)
Definition FindAsync (ps : list Product.t) (id : Z) : option Product.t :=
  find (fun p => Product.Id p =? id) ps.

(** Saving the tracked entity of key [id] after the assignments [f]: the
    row with that key takes the new values. *)
Definition save (id : Z) (f : Product.t -> Product.t) (ps : list Product.t)
  : list Product.t :=
  map (fun p => if Product.Id p =? id then f p else p) ps.

(** GET /api/products *)
Definition listProducts (db : AppDbContext) : list Product.t :=
  filter Product.IsActive (Products db).

(** GET /api/products/{id} *)
Definition getProduct (db : AppDbContext) (id : Z) : IResult Product.t :=
  match FindAsync (Products db) id with
  | Some p => Ok p
  | None => NotFound
  end.

(** POST /api/products *)
Definition createProduct (now : DateTime) (db : AppDbContext) (product : Product.t)
  : AppDbContext * IResult Product.t :=
  let key := ProductKey db + 1 in
  let product :=
    {| Product.Id := key;
       Product.Name := Product.Name product;
       Product.Description := Product.Description product;
       Product.Price := Product.Price product;
       Product.Stock := Product.Stock product;
       Product.Category := Product.Category product;
       Product.Image := Product.Image product;
       Product.IsActive := Product.IsActive product;
       Product.CreatedAt := now;
       Product.UpdatedAt := now |} in
  ({| Products := (Products db ++ [product])%list;
      Transactions := Transactions db;
      ProductKey := key;
      TransactionKey := TransactionKey db;
      TransactionItemKey := TransactionItemKey db |},
   Created ("/api/products/" ++ ToString key) product).

(** The assignments of PUT /api/products/{id} to the tracked row. *)
Definition merge (now : DateTime) (update product : Product.t) : Product.t :=
  {| Product.Id := Product.Id product;
     Product.Name := coalesce (Product.Name update) (Product.Name product);
     Product.Description :=
       coalesce (Product.Description update) (Product.Description product);
     Product.Price :=
       if negb (PrimFloat.eqb (Product.Price update) 0)
       then Product.Price update else Product.Price product;
     Product.Stock :=
       if negb (Product.Stock update =? 0)
       then Product.Stock update else Product.Stock product;
     Product.Category := coalesce (Product.Category update) (Product.Category product);
     Product.Image := coalesce (Product.Image update) (Product.Image product);
     Product.IsActive := Product.IsActive update;
     Product.CreatedAt := Product.CreatedAt product;
     Product.UpdatedAt := now |}.

Definition with_Products (db : AppDbContext) (ps : list Product.t) : AppDbContext :=
  {| Products := ps;
     Transactions := Transactions db;
     ProductKey := ProductKey db;
     TransactionKey := TransactionKey db;
     TransactionItemKey := TransactionItemKey db |}.

(** PUT /api/products/{id} *)
Definition updateProduct (now : DateTime) (db : AppDbContext) (id : Z)
    (update : Product.t) : AppDbContext * IResult Product.t :=
  match FindAsync (Products db) id with
  | None => (db, NotFound)
  | Some product =>
      let product := merge now update product in
      (with_Products db (save id (merge now update) (Products db)), Ok product)
  end.

Definition deactivated (now : DateTime) (product : Product.t) : Product.t :=
  {| Product.Id := Product.Id product;
     Product.Name := Product.Name product;
     Product.Description := Product.Description product;
     Product.Price := Product.Price product;
     Product.Stock := Product.Stock product;
     Product.Category := Product.Category product;
     Product.Image := Product.Image product;
     Product.IsActive := false;
     Product.CreatedAt := Product.CreatedAt product;
     Product.UpdatedAt := now |}.

(** DELETE /api/products/{id} *)
Definition deleteProduct (now : DateTime) (db : AppDbContext) (id : Z)
  : AppDbContext * IResult string :=
  match FindAsync (Products db) id with
  | None => (db, NotFound)
  | Some product =>
      (with_Products db (save id (deactivated now) (Products db)),
       Ok "Product deleted successfully")
  end.

(** The assignments of POST /api/transactions to a product it found. *)
Definition sold (now : DateTime) (quantity : Z) (product : Product.t) : Product.t :=
  {| Product.Id := Product.Id product;
     Product.Name := Product.Name product;
     Product.Description := Product.Description product;
     Product.Price := Product.Price product;
     Product.Stock := int_sub (Product.Stock product) quantity;
     Product.Category := Product.Category product;
     Product.Image := Product.Image product;
     Product.IsActive := Product.IsActive product;
     Product.CreatedAt := Product.CreatedAt product;
     Product.UpdatedAt := now |}.

(** One turn of the [foreach] over the items. *)
Definition sell (now : DateTime) (ps : list Product.t) (item : TransactionItem.t)
  : list Product.t :=
  match FindAsync ps (TransactionItem.ProductId item) with
  | Some _ =>
      save (TransactionItem.ProductId item)
           (sold now (TransactionItem.Quantity item)) ps
  | None => ps
  end.

(** Adding the transaction graph: the store issues the keys of the items
    and points each item to its transaction. *)
Fixpoint track_items (tid key : Z) (items : list TransactionItem.t)
  : list TransactionItem.t :=
  match items with
  | [] => []
  | item :: rest =>
      {| TransactionItem.Id := key + 1;
         TransactionItem.TransactionId := tid;
         TransactionItem.ProductId := TransactionItem.ProductId item;
         TransactionItem.ProductName := TransactionItem.ProductName item;
         TransactionItem.Price := TransactionItem.Price item;
         TransactionItem.Quantity := TransactionItem.Quantity item;
         TransactionItem.Total := TransactionItem.Total item |}
      :: track_items tid (key + 1) rest
  end.

Definition TransactionNumber_of (count : Z) : string :=
  "TXN-" ++ format_000000 (int_add count 1).

(** POST /api/transactions *)
Definition createTransaction (now : DateTime) (db : AppDbContext)
    (transaction : Transaction.t) : AppDbContext * IResult Transaction.t :=
  let count := Z.of_nat (List.length (Transactions db)) in
  let products := fold_left (sell now) (Transaction.Items transaction) (Products db) in
  let key := TransactionKey db + 1 in
  let transaction :=
    {| Transaction.Id := key;
       Transaction.TransactionNumber := TransactionNumber_of count;
       Transaction.CreatedAt := now;
       Transaction.Status := "completed";
       Transaction.Subtotal := Transaction.Subtotal transaction;
       Transaction.Tax := Transaction.Tax transaction;
       Transaction.Discount := Transaction.Discount transaction;
       Transaction.Total := Transaction.Total transaction;
       Transaction.PaymentMethod := Transaction.PaymentMethod transaction;
       Transaction.CustomerName := Transaction.CustomerName transaction;
       Transaction.Notes := Transaction.Notes transaction;
       Transaction.Items :=
         track_items key (TransactionItemKey db) (Transaction.Items transaction) |} in
  ({| Products := products;
      Transactions := (Transactions db ++ [transaction])%list;
      ProductKey := ProductKey db;
      TransactionKey := key;
      TransactionItemKey :=
        TransactionItemKey db + Z.of_nat (List.length (Transaction.Items transaction)) |},
   Created ("/api/transactions/" ++ ToString key) transaction).

(** GET /api/dashboard/stats *)
Record Stats : Type := mkStats {
  totalProducts : Z;
  totalTransactions : Z;
  todayRevenue : float;
  todayTransactions : Z;
  lowStockCount : Z
}.

(** [CountAsync(pred)] *)
Definition CountAsync {A : Type} (pred : A -> bool) (rows : list A) : Z :=
  Z.of_nat (List.length (filter pred rows)).

(** [rows.Sum(selector)] on [double]: a running sum from [0.0]. *)
Definition Sum {A : Type} (selector : A -> float) (rows : list A) : float :=
  fold_left (fun sum row => PrimFloat.add sum (selector row)) rows 0%float.

Definition dashboardStats (now : DateTime) (db : AppDbContext) : Stats :=
  let todayStart := Date now in
  let todaySales :=
    filter (fun t => Transaction.CreatedAt t >=? todayStart) (Transactions db) in
  {| totalProducts := CountAsync Product.IsActive (Products db);
     totalTransactions := Z.of_nat (List.length (Transactions db));
     todayRevenue := Sum Transaction.Total todaySales;
     todayTransactions := Z.of_nat (List.length todaySales);
     lowStockCount :=
       CountAsync (fun p => (Product.Stock p <? 10) && Product.IsActive p) (Products db) |}.

(** GET /api/transactions/{id}: [FirstOrDefaultAsync(t => t.Id == id)] *)
Definition getTransaction (db : AppDbContext) (id : Z) : IResult Transaction.t :=
  match find (fun t => Transaction.Id t =? id) (Transactions db) with
  | Some txn => Ok txn
  | None => NotFound
  end.

(** [OrderByDescending(t => t.CreatedAt)]: a transaction goes in front of the
    first one that is not newer than it.  Among transactions of equal time
    the order is the store's choice; here they keep their stored order. *)
Fixpoint insert_desc (t : Transaction.t) (sorted : list Transaction.t)
  : list Transaction.t :=
  match sorted with
  | [] => [t]
  | u :: rest =>
      if Transaction.CreatedAt u <=? Transaction.CreatedAt t
      then t :: u :: rest
      else u :: insert_desc t rest
  end.

Definition OrderByDescending (rows : list Transaction.t) : list Transaction.t :=
  fold_right insert_desc [] rows.

(** GET /api/transactions *)
Definition listTransactions (db : AppDbContext) : list Transaction.t :=
  OrderByDescending (Transactions db).

Definition same_category (a b : option string) : bool :=
  match a, b with
  | Some x, Some y => (x =? y)%string
  | None, None => true
  | _, _ => false
  end.

(** [Distinct()]: each value once, at its first place. *)
Fixpoint Distinct (values : list (option string)) : list (option string) :=
  match values with
  | [] => []
  | v :: rest => v :: filter (fun w => negb (same_category v w)) (Distinct rest)
  end.

(** GET /api/categories *)
Definition listCategories (db : AppDbContext) : IResult (list (option string)) :=
  Ok (Distinct (map Product.Category (filter Product.IsActive (Products db)))).

End Backend.

(** ** The client: product forms and the POS checkout

    JavaScript numbers are [float]; [Number] (string to number) and
    [String.prototype.trim] belong to the language, the forms take them as
    given. *)

Module Client.

(** What a submit handler does before it awaits the response: it shows an
    alert and returns, or it sends a request body. *)
Inductive submit (A : Type) : Type :=
| Alert (title message : string)
| Send (body : A).
Arguments Alert {A} title message.
Arguments Send {A} body.

(** [!s] on a string *)
Definition empty (s : string) : bool := (s =? "")%string.
(** [a || b] on strings *)
Definition or_else (a b : string) : string := if empty a then b else a.
(** [s || undefined] *)
Definition or_undefined (s : string) : option string :=
  if empty s then None else Some s.
Definition isNaN (x : float) : bool := negb (PrimFloat.eqb x x).

Module FormData.
Record t : Type := mk {
  name : string;
  description : string;
  price : string;
  stock : string;
  category : string;
  image : string
}.
End FormData.

(** The body of POST /api/products. *)
Module ProductData.
Record t : Type := mk {
  name : string;
  description : string;
  price : float;
  stock : float;
  category : string;
  image : option string
}.
End ProductData.

(** The product the edit screen loaded. *)
Module Product.
Record t : Type := mk {
  id : string;
  name : string;
  description : string;
  price : float;
  stock : float;
  category : string;
  image : option string;
  is_active : bool
}.
End Product.

(** The body of PUT /api/products/{id}: a key is present ([Some]) only for
    a changed field; the [image] key may be present with value
    [undefined]. *)
Module UpdateData.
Record t : Type := mk {
  name : option string;
  description : option string;
  price : option float;
  stock : option float;
  category : option string;
  image : option (option string)
}.

Definition present {A : Type} (o : option A) : nat :=
  match o with
  | Some _ => 1
  | None => 0
  end.

(** [Object.keys(updateData).length] *)
Definition keys (u : t) : nat :=
  (present (name u) + present (description u) + present (price u)
   + present (stock u) + present (category u) + present (image u))%nat.
End UpdateData.

Definition changed_string (new old : string) : option string :=
  if negb (new =? old)%string then Some new else None.
Definition changed_number (new old : float) : option float :=
  if negb (PrimFloat.eqb new old) then Some new else None.

Section Forms.
Variable trim : string -> string.
Variable Number : string -> float.

(** The three checks both [handleSubmit] run first; [Some] is the alert
    shown. *)
Definition validate (formData : FormData.t) : option string :=
  if empty (trim (FormData.name formData)) then
    Some "Product name is required"
  else if empty (FormData.price formData)
          || isNaN (Number (FormData.price formData))
          || PrimFloat.leb (Number (FormData.price formData)) 0 then
    Some "Please enter a valid price"
  else if empty (FormData.stock formData)
          || isNaN (Number (FormData.stock formData))
          || PrimFloat.ltb (Number (FormData.stock formData)) 0 then
    Some "Please enter a valid stock quantity"
  else None.
End Forms.

Module AddProductScreen.
Definition handleSubmit (trim : string -> string) (Number : string -> float)
    (formData : FormData.t) : submit ProductData.t :=
  match validate trim Number formData with
  | Some message => Alert "Validation Error" message
  | None =>
      Send {| ProductData.name := trim (FormData.name formData);
              ProductData.description := trim (FormData.description formData);
              ProductData.price := Number (FormData.price formData);
              ProductData.stock := Number (FormData.stock formData);
              ProductData.category := or_else (FormData.category formData) "General";
              ProductData.image := or_undefined (FormData.image formData) |}
  end.
End AddProductScreen.

(** The edit form is rendered, and [handleSubmit] reachable, only once the
    product is loaded. *)
Module EditProductScreen.
Definition handleSubmit (trim : string -> string) (Number : string -> float)
    (product : Product.t) (formData : FormData.t) : submit UpdateData.t :=
  match validate trim Number formData with
  | Some message => Alert "Validation Error" message
  | None =>
      let updateData :=
        {| UpdateData.name :=
             changed_string (trim (FormData.name formData)) (Product.name product);
           UpdateData.description :=
             changed_string (trim (FormData.description formData))
                            (Product.description product);
           UpdateData.price :=
             changed_number (Number (FormData.price formData)) (Product.price product);
           UpdateData.stock :=
             changed_number (Number (FormData.stock formData)) (Product.stock product);
           UpdateData.category :=
             changed_string (FormData.category formData) (Product.category product);
           UpdateData.image :=
             match Product.image product with
             | Some old =>
                 if negb (FormData.image formData =? old)%string
                 then Some (or_undefined (FormData.image formData)) else None
             | None => Some (or_undefined (FormData.image formData))
             end |} in
      if (UpdateData.keys updateData =? 0)%nat then
        Alert "No Changes" "No changes were made to the product"
      else Send updateData
  end.
End EditProductScreen.

(** The POS screen: the cart and its checkout. *)
Module POSScreen.
Record Product : Type := mkProduct {
  id : string;
  name : string;
  price : float;
  stock : float;
  category : string;
  image : option string
}.

Record CartItem : Type := mkCartItem {
  product : Product;
  quantity : float
}.

Module Item.
Record t : Type := mk {
  product_id : string;
  product_name : string;
  price : float;
  quantity : float;
  total : float
}.
End Item.

Module TransactionData.
Record t : Type := mk {
  items : list Item.t;
  subtotal : float;
  tax : float;
  discount : float;
  total : float;
  payment_method : string;
  customer_name : option string;
  notes : option string
}.
End TransactionData.

Definition calculateTotal (cart : list CartItem) : float :=
  fold_left
    (fun sum item => PrimFloat.add sum (PrimFloat.mul (price (product item)) (quantity item)))
    cart 0%float.

Definition processTransaction (cart : list CartItem) : submit TransactionData.t :=
  if (List.length cart =? 0)%nat then
    Alert "Empty Cart" "Please add items to cart before checkout"
  else
    Send {| TransactionData.items :=
              map (fun item =>
                     {| Item.product_id := id (product item);
                        Item.product_name := name (product item);
                        Item.price := price (product item);
                        Item.quantity := quantity item;
                        Item.total := PrimFloat.mul (price (product item)) (quantity item) |})
                  cart;
            TransactionData.subtotal := calculateTotal cart;
            TransactionData.tax := 0%float;
            TransactionData.discount := 0%float;
            TransactionData.total := calculateTotal cart;
            TransactionData.payment_method := "cash";
            TransactionData.customer_name := None;
            TransactionData.notes := None |}.
(** [Math.min] of two numbers: NaN if either is, and [-0] below [+0]. *)
Definition Math_min (a b : float) : float :=
  if isNaN a || isNaN b then PrimFloat.nan
  else if PrimFloat.ltb a b then a
  else if PrimFloat.ltb b a then b
  else match PrimFloat.classify a with
       | NZero => a
       | _ => b
       end.

(** What [fetchProducts] keeps of the loaded list: products in stock. *)
Definition inStock (data : list Product) : list Product :=
  filter (fun p => PrimFloat.ltb 0 (stock p)) data.

Definition addToCart (product0 : Product) (prevCart : list CartItem) : list CartItem :=
  match find (fun item => (id (product item) =? id product0)%string) prevCart with
  | Some existingItem =>
      if PrimFloat.leb (stock product0) (quantity existingItem)
      then prevCart
      else map (fun item =>
                  if (id (product item) =? id product0)%string
                  then {| product := product item;
                          quantity := PrimFloat.add (quantity item) 1 |}
                  else item)
               prevCart
  | None => (prevCart ++ [ {| product := product0; quantity := 1%float |} ])%list
  end.

Definition removeFromCart (productId : string) (prevCart : list CartItem)
  : list CartItem :=
  filter (fun item => negb (id (product item) =? productId)%string) prevCart.

Definition updateCartItemQuantity (productId : string) (newQuantity : float)
    (prevCart : list CartItem) : list CartItem :=
  if PrimFloat.leb newQuantity 0 then removeFromCart productId prevCart
  else map (fun item =>
              if (id (product item) =? productId)%string
              then let maxQuantity := stock (product item) in
                   let validQuantity := Math_min newQuantity maxQuantity in
                   {| product := product item; quantity := validQuantity |}
              else item)
           prevCart.

Definition clearCart : list CartItem := [].

(** [s.includes(sub)] *)
Fixpoint includes (s sub : string) : bool :=
  prefix sub s ||
  match s with
  | EmptyString => false
  | String _ s' => includes s' sub
  end.

(** The products the search box leaves on screen; [toLowerCase] belongs to
    the language.  The products screen filters its list the same way. *)
Definition filteredProducts (toLowerCase : string -> string) (searchQuery : string)
    (products : list Product) : list Product :=
  filter (fun product0 =>
            includes (toLowerCase (name product0)) (toLowerCase searchQuery)
            || includes (toLowerCase (category product0)) (toLowerCase searchQuery))
         products.

End POSScreen.

End Client.

(** ** Vocabulary of the statements *)

Import CSharp Backend.

Definition has_product (db : AppDbContext) (id : Z) : Prop :=
  exists p, In p (Products db) /\ Product.Id p = id.

Definition keeps_Id (f : Product.t -> Product.t) : Prop :=
  forall p, Product.Id (f p) = Product.Id p.

Definition deleted_message : string := "Product deleted successfully".

(** The doubles nearest to 9.99 and to 19.98. *)
Definition nine_99 : float := 0x1.3fae147ae147bp+3%float.
Definition nineteen_98 : float := 0x1.3fae147ae147bp+4%float.

(** A small store: an active widget at 9.99 with five in stock, a retired
    gadget. *)
Definition widget : Product.t :=
  {| Product.Id := 1; Product.Name := Some "Widget"; Product.Description := Some "";
     Product.Price := nine_99; Product.Stock := 5;
     Product.Category := Some "General"; Product.Image := None;
     Product.IsActive := true; Product.CreatedAt := 100; Product.UpdatedAt := 100 |}.

Definition gadget : Product.t :=
  {| Product.Id := 2; Product.Name := Some "Gadget"; Product.Description := Some "old";
     Product.Price := 4%float; Product.Stock := 3;
     Product.Category := Some "Electronics"; Product.Image := None;
     Product.IsActive := false; Product.CreatedAt := 100; Product.UpdatedAt := 150 |}.

Definition shop : AppDbContext :=
  {| Products := [widget; gadget]; Transactions := [];
     ProductKey := 2; TransactionKey := 0; TransactionItemKey := 0 |}.

(** The lines of a transaction that name product [id], and the quantity
    they sell in total. *)
Definition lines_of (id : Z) (items : list TransactionItem.t) : list TransactionItem.t :=
  filter (fun item => TransactionItem.ProductId item =? id) items.

Definition quantity_for (id : Z) (items : list TransactionItem.t) : Z :=
  fold_right Z.add 0 (map TransactionItem.Quantity (lines_of id items)).

(** What a line says, apart from the keys the store issues. *)
Definition line (item : TransactionItem.t) : Z * option string * float * Z * float :=
  (TransactionItem.ProductId item, TransactionItem.ProductName item,
   TransactionItem.Price item, TransactionItem.Quantity item,
   TransactionItem.Total item).

(** The product a row becomes under the items of one transaction. *)
Definition sell_result (now : DateTime) (id : Z) (items : list TransactionItem.t)
    (p : Product.t) : Product.t :=
  fold_left
    (fun p item =>
       if TransactionItem.ProductId item =? id
       then sold now (TransactionItem.Quantity item) p else p)
    items p.

(** All fields of a product that a sale leaves alone. *)
Definition same_but_stock (p p' : Product.t) : Prop :=
  Product.Id p' = Product.Id p /\ Product.Name p' = Product.Name p /\
  Product.Description p' = Product.Description p /\
  Product.Price p' = Product.Price p /\ Product.Category p' = Product.Category p /\
  Product.Image p' = Product.Image p /\ Product.IsActive p' = Product.IsActive p /\
  Product.CreatedAt p' = Product.CreatedAt p.

Definition sale_line (id qty : Z) (price total : float) : TransactionItem.t :=
  {| TransactionItem.Id := 0; TransactionItem.TransactionId := 0;
     TransactionItem.ProductId := id; TransactionItem.ProductName := Some "Widget";
     TransactionItem.Price := price; TransactionItem.Quantity := qty;
     TransactionItem.Total := total |}.

Definition sale (items : list TransactionItem.t) (subtotal total : float) : Transaction.t :=
  {| Transaction.Id := 0; Transaction.TransactionNumber := "";
     Transaction.CreatedAt := 0; Transaction.Status := "completed";
     Transaction.Subtotal := subtotal; Transaction.Tax := 0%float;
     Transaction.Discount := 0%float; Transaction.Total := total;
     Transaction.PaymentMethod := Some "cash"; Transaction.CustomerName := None;
     Transaction.Notes := None; Transaction.Items := items |}.

(** Two widgets at 9.99: the sale of the worked example. *)
Definition two_widgets : Transaction.t :=
  sale [sale_line 1 2 nine_99 nineteen_98]
       nineteen_98 nineteen_98.



Definition empty_sale : Transaction.t := sale [] 0%float 0%float.

Definition is_Created {A : Type} (r : IResult A) : bool :=
  match r with
  | Created _ _ => true
  | _ => false
  end.

(** [(double) n] for an [int] *)
Definition double_of_int (n : Z) : float :=
  if n <? 0
  then PrimFloat.opp (PrimFloat.of_uint63 (Uint63.of_Z (- n)))
  else PrimFloat.of_uint63 (Uint63.of_Z n).

(** The line total the server would get from the product's own price. *)
Definition server_line_total (db : AppDbContext) (item : TransactionItem.t)
  : option float :=
  option_map
    (fun p => PrimFloat.mul (Product.Price p)
                (double_of_int (TransactionItem.Quantity item)))
    (FindAsync (Products db) (TransactionItem.ProductId item)).

(** A running sum of numbers from [0], as [reduce] and [Sum] compute it. *)
Definition running_sum (xs : list float) : float := fold_left PrimFloat.add xs 0%float.

(** Two widgets sent with a price of 1 and a total of 1, under a subtotal
    of 5. *)
Definition underpriced_sale : Transaction.t :=
  sale [sale_line 1 2 1%float 1%float] 5%float 5%float.

(** The POS cart holding two widgets at 9.99. *)
Definition pos_widget : Client.POSScreen.Product :=
  {| Client.POSScreen.id := "1"; Client.POSScreen.name := "Widget";
     Client.POSScreen.price := nine_99; Client.POSScreen.stock := 5%float;
     Client.POSScreen.category := "General"; Client.POSScreen.image := None |}.

Definition cart_two_widgets : list Client.POSScreen.CartItem :=
  [ {| Client.POSScreen.product := pos_widget; Client.POSScreen.quantity := 2%float |} ].

(** [total == subtotal - discount + tax] on the stored amounts. *)
Definition balanced (t : Transaction.t) : bool :=
  PrimFloat.eqb (Transaction.Total t)
    (PrimFloat.add (PrimFloat.sub (Transaction.Subtotal t) (Transaction.Discount t))
                   (Transaction.Tax t)).

(** The four amounts of a stored transaction are those of the request. *)
Definition same_amounts (t request : Transaction.t) : Prop :=
  Transaction.Subtotal t = Transaction.Subtotal request /\
  Transaction.Tax t = Transaction.Tax request /\
  Transaction.Discount t = Transaction.Discount request /\
  Transaction.Total t = Transaction.Total request.

(** The request carries the amounts the POS client computed. *)
Definition carries (request : Transaction.t) (data : Client.POSScreen.TransactionData.t)
  : Prop :=
  Transaction.Subtotal request = Client.POSScreen.TransactionData.subtotal data /\
  Transaction.Tax request = Client.POSScreen.TransactionData.tax data /\
  Transaction.Discount request = Client.POSScreen.TransactionData.discount data /\
  Transaction.Total request = Client.POSScreen.TransactionData.total data.

(** A subtotal of 10 without tax or discount, sent with a total of 3. *)
Definition unbalanced_sale : Transaction.t :=
  sale [sale_line 1 1 10%float 10%float] 10%float 3%float.

(** [k] decimal digits of [n], most significant first, in front of [acc]. *)
Fixpoint fixed (k : nat) (n : Z) (acc : string) : string :=
  match k with
  | O => acc
  | S k' => fixed k' (n / 10) (String (digit (n mod 10)) acc)
  end.

Definition six_digits (n : Z) : string := fixed 6 n "".

(** The number a string of decimal digits writes, continuing from [acc]. *)
Fixpoint read_decimal (acc : Z) (s : string) : Z :=
  match s with
  | EmptyString => acc
  | String c s' => read_decimal (acc * 10 + (Z.of_N (N_of_ascii c) - 48)) s'
  end.

(** The counter written in a transaction number, after its [TXN-]. *)
Definition number_value (number : string) : Z :=
  read_decimal 0 (substring 4 (String.length number - 4) number).

(** The stored transactions carry the numbers of their creation order. *)
Definition numbered (db : AppDbContext) : Prop :=
  forall i t,
    nth_error (Transactions db) i = Some t ->
    Transaction.TransactionNumber t = TransactionNumber_of (Z.of_nat i).

(** The store after [n] sales from the shop without transactions. *)
Definition after_sales (n : nat) : AppDbContext :=
  Nat.iter n (fun db => fst (createTransaction 200 db empty_sale)) shop.

(** A transaction created on the UTC calendar day of [now]. *)
Definition same_utc_day (now : DateTime) (t : Transaction.t) : bool :=
  Transaction.CreatedAt t / TicksPerDay =? now / TicksPerDay.

Definition active_products (db : AppDbContext) : list Product.t :=
  filter Product.IsActive (Products db).

Definition low_stock (p : Product.t) : bool := Product.Stock p <? 10.

(** No stored transaction is dated after [now]: creation stamps come from
    the clock. *)
Definition none_in_future (now : DateTime) (db : AppDbContext) : Prop :=
  forall t, In t (Transactions db) -> Transaction.CreatedAt t <= now.

(** The body of a new product with five in stock. *)
Definition five_in_stock : ProductBody :=
  {| name := Val "Pen"; description := Missing; price := Some 2%float;
     stock := Some 5; category := Missing; image := Missing; isActive := None |}.

(** The shop after a sale on day 0 and a sale on day 1. *)
Definition two_days : AppDbContext :=
  fst (createTransaction 864000000100
         (fst (createTransaction 100 shop two_widgets)) unbalanced_sale).

(** Stand-ins for [trim] and [Number] that agree with JavaScript on strings
    of decimal digits without white space. *)
Definition plain_trim (s : string) : string := s.

Definition is_digit (c : ascii) : bool :=
  ((48 <=? N_of_ascii c) && (N_of_ascii c <=? 57))%N.

Definition digits_Number (s : string) : float :=
  if forallb is_digit (list_ascii_of_string s)
  then double_of_int (read_decimal 0 s) else PrimFloat.nan.




(** The edit screen showing the gadget, with only the price changed to 12,
    and the body it leads to: a price and nothing else. *)
Definition client_gadget : Client.Product.t :=
  {| Client.Product.id := "2"; Client.Product.name := "Gadget";
     Client.Product.description := "old"; Client.Product.price := 4%float;
     Client.Product.stock := 3%float; Client.Product.category := "Electronics";
     Client.Product.image := None; Client.Product.is_active := false |}.

Definition gadget_form : Client.FormData.t :=
  {| Client.FormData.name := "Gadget"; Client.FormData.description := "old";
     Client.FormData.price := "12"; Client.FormData.stock := "3";
     Client.FormData.category := "Electronics"; Client.FormData.image := "" |}.

Definition price_only : ProductBody :=
  {| name := Missing; description := Missing; price := Some 12%float;
     stock := None; category := Missing; image := Missing; isActive := None |}.

(** Keys identify rows: no two rows of a table share an id, and no id lies
    beyond the last key the store issued. *)
Definition well_keyed (db : AppDbContext) : Prop :=
  NoDup (map Product.Id (Products db)) /\
  Forall (fun p => Product.Id p <= ProductKey db) (Products db) /\
  NoDup (map Transaction.Id (Transactions db)) /\
  Forall (fun t => Transaction.Id t <= TransactionKey db) (Transactions db).

(** A store with the shop's products and one earlier sale. *)
Definition one_sale : AppDbContext := fst (createTransaction 100 shop two_widgets).

(** A full body for the widget: every property present. *)
Definition widget_update : ProductBody :=
  {| name := Val "Widget XL"; description := Val "large"; price := Some 12%float;
     stock := Some 8; category := Val "General"; image := Missing;
     isActive := Some true |}.

(** A body that asks for price 0 and stock 0. *)
Definition zero_update : ProductBody :=
  {| name := Val "Widget"; description := Val ""; price := Some 0%float;
     stock := Some 0; category := Val "General"; image := Missing;
     isActive := Some true |}.

(** Two gadgets and a widget in one sale, and the same lines the other way
    round; three gadgets sold out of a stock of three, then one more. *)
Definition gadgets_then_widget : Transaction.t :=
  sale [sale_line 2 2 4%float 8%float; sale_line 1 1 nine_99 nine_99] 0%float 0%float.

Definition widget_then_gadgets : Transaction.t :=
  sale [sale_line 1 1 nine_99 nine_99; sale_line 2 2 4%float 8%float] 0%float 0%float.

Definition four_gadgets : Transaction.t :=
  sale [sale_line 2 4 4%float 16%float] 16%float 16%float.

(** Newest first: no transaction of the list is older than a later one. *)
Definition newest_first (l : list Transaction.t) : Prop :=
  StronglySorted
    (fun a b => Transaction.CreatedAt b <= Transaction.CreatedAt a) l.

(** Stored in the order of a clock that moved on between two sales. *)
Definition created_in_order (l : list Transaction.t) : Prop :=
  StronglySorted
    (fun a b => Transaction.CreatedAt a < Transaction.CreatedAt b) l.

(** The ids of the products in a cart, in cart order. *)
Definition cart_ids (cart : list Client.POSScreen.CartItem) : list string :=
  map (fun item => Client.POSScreen.id (Client.POSScreen.product item)) cart.

(** [sub] occurs in [s] as a run of consecutive characters. *)
Definition occurs_in (sub s : string) : Prop :=
  exists before after, s = before ++ sub ++ after.

(** A stand-in for [toLowerCase] on unaccented Latin letters. *)
Definition ascii_lower (c : ascii) : ascii :=
  if ((65 <=? N_of_ascii c) && (N_of_ascii c <=? 90))%N
  then ascii_of_N (N_of_ascii c + 32) else c.

Fixpoint latin_toLowerCase (s : string) : string :=
  match s with
  | EmptyString => EmptyString
  | String c s' => String (ascii_lower c) (latin_toLowerCase s')
  end.

(** A second product for the POS screen, and a cart with both. *)
Definition pos_gadget : Client.POSScreen.Product :=
  {| Client.POSScreen.id := "2"; Client.POSScreen.name := "Gadget";
     Client.POSScreen.price := 4%float; Client.POSScreen.stock := 3%float;
     Client.POSScreen.category := "Electronics"; Client.POSScreen.image := None |}.

Definition cart_both : list Client.POSScreen.CartItem :=
  [ {| Client.POSScreen.product := pos_widget; Client.POSScreen.quantity := 2%float |};
    {| Client.POSScreen.product := pos_gadget; Client.POSScreen.quantity := 1%float |} ].

(** The edit form shows the loaded product as it is: nothing was changed. *)
Definition unchanged (trim : string -> string) (Number : string -> float)
    (product : Client.Product.t) (formData : Client.FormData.t) : Prop :=
  trim (Client.FormData.name formData) = Client.Product.name product /\
  trim (Client.FormData.description formData) = Client.Product.description product /\
  PrimFloat.eqb (Number (Client.FormData.price formData)) (Client.Product.price product)
  = true /\
  PrimFloat.eqb (Number (Client.FormData.stock formData)) (Client.Product.stock product)
  = true /\
  Client.FormData.category formData = Client.Product.category product.

(** The gadget's form as loaded, and a pictured gadget with its form. *)
Definition gadget_form_loaded : Client.FormData.t :=
  {| Client.FormData.name := "Gadget"; Client.FormData.description := "old";
     Client.FormData.price := "4"; Client.FormData.stock := "3";
     Client.FormData.category := "Electronics"; Client.FormData.image := "" |}.

Definition pictured_gadget : Client.Product.t :=
  {| Client.Product.id := "2"; Client.Product.name := "Gadget";
     Client.Product.description := "old"; Client.Product.price := 4%float;
     Client.Product.stock := 3%float; Client.Product.category := "Electronics";
     Client.Product.image := Some "aGk="; Client.Product.is_active := true |}.

Definition pictured_form_loaded : Client.FormData.t :=
  {| Client.FormData.name := "Gadget"; Client.FormData.description := "old";
     Client.FormData.price := "4"; Client.FormData.stock := "3";
     Client.FormData.category := "Electronics"; Client.FormData.image := "aGk=" |}.

(** The requests that change the store, the store each leaves, and the store
    a log of timed requests leads to from the empty one. *)
Inductive request : Type :=
| PostProduct (product : Product.t)
| PutProduct (id : Z) (update : Product.t)
| DeleteProduct (id : Z)
| PostTransaction (transaction : Transaction.t).

Definition handle (now : DateTime) (r : request) (db : AppDbContext) : AppDbContext :=
  match r with
  | PostProduct product => fst (createProduct now db product)
  | PutProduct id update => fst (updateProduct now db id update)
  | DeleteProduct id => fst (deleteProduct now db id)
  | PostTransaction transaction => fst (createTransaction now db transaction)
  end.

Definition empty_store : AppDbContext :=
  {| Products := []; Transactions := [];
     ProductKey := 0; TransactionKey := 0; TransactionItemKey := 0 |}.

Definition serve (log : list (DateTime * request)) (db : AppDbContext) : AppDbContext :=
  fold_left (fun db entry => handle (fst entry) (snd entry) db) log db.

(** Two lines for the widget, each of the largest [int] quantity. *)
Definition overflowing_sale : Transaction.t :=
  sale [sale_line 1 2147483647 1%float 1%float; sale_line 1 2147483647 1%float 1%float]
       2%float 2%float.

(** The rows of the transaction items table: the items of every stored
    transaction. *)
Definition all_items (db : AppDbContext) : list TransactionItem.t :=
  flat_map Transaction.Items (Transactions db).

(** Sound keys in all three tables: those of products and transactions, and
    for the items, no two rows with one id, no id beyond the last item key
    issued, and every item pointing to the transaction that holds it. *)
Definition rows_keyed (db : AppDbContext) : Prop :=
  well_keyed db /\
  NoDup (map TransactionItem.Id (all_items db)) /\
  Forall (fun i => TransactionItem.Id i <= TransactionItemKey db) (all_items db) /\
  Forall (fun t =>
            Forall (fun i => TransactionItem.TransactionId i = Transaction.Id t)
                   (Transaction.Items t))
         (Transactions db).

(** Four gadgets and two widgets in one sale. *)
Definition gadgets_and_widgets : Transaction.t :=
  sale [sale_line 2 4 4%float 16%float; sale_line 1 2 nine_99 nineteen_98]
       0%float 0%float.

(** * Properties *)

Create HintDb pos.

(** ** Rows and keys *)

Lemma FindAsync_Some ps id p :
  FindAsync ps id = Some p -> In p ps /\ Product.Id p = id.
Proof.
  unfold FindAsync. intros H. apply find_some in H.
  destruct H as [Hin Hid]. split; [assumption | now apply Z.eqb_eq].
Qed.

Lemma FindAsync_None ps id :
  FindAsync ps id = None <-> (forall p, In p ps -> Product.Id p <> id).
Proof.
  unfold FindAsync. split.
  - intros H p Hin Hid. pose proof (find_none _ _ H p Hin) as Hf.
    apply Z.eqb_neq in Hf. contradiction.
  - intros H. induction ps as [|q ps IH]; simpl; [reflexivity|].
    destruct (Product.Id q =? id) eqn:E.
    + apply Z.eqb_eq in E. exfalso. apply (H q); [now left | assumption].
    + apply IH. intros p Hin. apply H. now right.
Qed.

Lemma FindAsync_absent db id :
  FindAsync (Products db) id = None <-> ~ has_product db id.
Proof.
  rewrite FindAsync_None. unfold has_product. split.
  - intros H [p [Hin Hid]]. exact (H p Hin Hid).
  - intros H p Hin Hid. apply H. exists p. now split.
Qed.

Lemma FindAsync_save f id id' ps :
  keeps_Id f ->
  FindAsync (save id f ps) id' =
  if id' =? id then option_map f (FindAsync ps id') else FindAsync ps id'.
Proof.
  intros Hf. unfold FindAsync, save.
  induction ps as [|q ps IH]; simpl.
  - now destruct (id' =? id).
  - destruct (Product.Id q =? id) eqn:Eq.
    + apply Z.eqb_eq in Eq. rewrite Hf.
      destruct (Product.Id q =? id') eqn:Eq'.
      * apply Z.eqb_eq in Eq'.
        replace (id' =? id) with true by (symmetry; apply Z.eqb_eq; lia).
        reflexivity.
      * exact IH.
    + destruct (Product.Id q =? id') eqn:Eq'.
      * apply Z.eqb_eq in Eq'. apply Z.eqb_neq in Eq.
        replace (id' =? id) with false by (symmetry; apply Z.eqb_neq; lia).
        reflexivity.
      * exact IH.
Qed.

Lemma FindAsync_save_same f id ps :
  keeps_Id f -> FindAsync (save id f ps) id = option_map f (FindAsync ps id).
Proof. intros Hf. rewrite FindAsync_save by assumption. now rewrite Z.eqb_refl. Qed.

Lemma FindAsync_save_other f id id' ps :
  keeps_Id f -> id' <> id -> FindAsync (save id f ps) id' = FindAsync ps id'.
Proof.
  intros Hf Hne. rewrite FindAsync_save by assumption.
  now apply Z.eqb_neq in Hne; rewrite Hne.
Qed.

Lemma In_save f id ps q :
  In q (save id f ps) ->
  exists p, In p ps /\ q = (if Product.Id p =? id then f p else p).
Proof.
  unfold save. intros H. apply in_map_iff in H. destruct H as [p [Hq Hin]].
  exists p. split; [assumption | now symmetry].
Qed.

Lemma keeps_Id_deactivated now : keeps_Id (deactivated now).
Proof. intros p. reflexivity. Qed.

Lemma keeps_Id_sold now q : keeps_Id (sold now q).
Proof. intros p. reflexivity. Qed.

Lemma keeps_Id_merge now update : keeps_Id (merge now update).
Proof. intros p. reflexivity. Qed.

#[local] Hint Resolve keeps_Id_deactivated keeps_Id_sold keeps_Id_merge : pos.

(** ** Catalog: by-id lookup and soft delete *)

Lemma deleteProduct_found now db id p :
  FindAsync (Products db) id = Some p ->
  deleteProduct now db id =
  (with_Products db (save id (deactivated now) (Products db)), Ok deleted_message).
Proof. intros H. unfold deleteProduct. now rewrite H. Qed.

Lemma deleteProduct_row now db id p :
  FindAsync (Products db) id = Some p ->
  FindAsync (Products (fst (deleteProduct now db id))) id = Some (deactivated now p).
Proof.
  intros H. rewrite (deleteProduct_found now db id p H). simpl.
  rewrite FindAsync_save_same by auto with pos. now rewrite H.
Qed.

(** C8: DELETE /api/products/{id} answers NotFound and changes nothing when
    the id is absent; when the id is present it answers Ok, the row becomes
    inactive with the call's timestamp and no other field changes; a second
    call on the same id again answers Ok and the row stays inactive. *)
Theorem deleteProduct_idempotent (now1 now2 : DateTime) (db : AppDbContext) (id : Z) :
  (~ has_product db id -> deleteProduct now1 db id = (db, NotFound)) /\
  (forall p, FindAsync (Products db) id = Some p ->
     let db1 := fst (deleteProduct now1 db id) in
     let db2 := fst (deleteProduct now2 db1 id) in
     snd (deleteProduct now1 db id) = Ok deleted_message /\
     FindAsync (Products db1) id = Some (deactivated now1 p) /\
     Product.IsActive (deactivated now1 p) = false /\
     Product.UpdatedAt (deactivated now1 p) = now1 /\
     snd (deleteProduct now2 db1 id) = Ok deleted_message /\
     exists p2, FindAsync (Products db2) id = Some p2 /\
                Product.IsActive p2 = false /\ Product.UpdatedAt p2 = now2).
Proof.
  split.
  - intros Habs. apply FindAsync_absent in Habs.
    unfold deleteProduct. now rewrite Habs.
  - intros p Hp db1 db2.
    pose proof (deleteProduct_row now1 db id p Hp) as H1. fold db1 in H1.
    pose proof (deleteProduct_row now2 db1 id _ H1) as H2. fold db2 in H2.
    repeat split.
    + now rewrite (deleteProduct_found now1 db id p Hp).
    + exact H1.
    + now rewrite (deleteProduct_found now2 db1 id _ H1).
    + eexists. split; [exact H2 | now split].
Qed.

Lemma deleteProduct_idempotent_witness :
  let db1 := fst (deleteProduct 200 shop 1) in
  let db2 := fst (deleteProduct 300 db1 1) in
  snd (deleteProduct 200 shop 1) = Ok deleted_message /\
  FindAsync (Products db1) 1 = Some (deactivated 200 widget) /\
  Product.IsActive (deactivated 200 widget) = false /\
  Product.UpdatedAt (deactivated 200 widget) = 200 /\
  snd (deleteProduct 300 db1 1) = Ok deleted_message /\
  exists p2, FindAsync (Products db2) 1 = Some p2 /\
             Product.IsActive p2 = false /\ Product.UpdatedAt p2 = 300.
Proof.
  apply (proj2 (deleteProduct_idempotent 200 300 shop 1) widget).
  reflexivity.
Defined.

Lemma getProduct_found db id p :
  FindAsync (Products db) id = Some p -> getProduct db id = Ok p.
Proof. intros H. unfold getProduct. now rewrite H. Qed.

Lemma listProducts_after_delete now db id q :
  In q (listProducts (with_Products db (save id (deactivated now) (Products db)))) ->
  Product.Id q <> id.
Proof.
  unfold listProducts. simpl. intros H. apply filter_In in H.
  destruct H as [Hin Hact]. apply In_save in Hin. destruct Hin as [p [_ Hq]].
  destruct (Product.Id p =? id) eqn:E; subst q.
  - simpl in Hact. discriminate.
  - now apply Z.eqb_neq.
Qed.

(** C10: GET /api/products/{id} answers NotFound exactly when no row has
    that id, whatever the active flag of the rows; after DELETE on an
    existing id the by-id lookup still returns the (now inactive) product,
    while GET /api/products lists no product of that id. *)
Theorem getProduct_NotFound_iff (now : DateTime) (db : AppDbContext) (id : Z) :
  (getProduct db id = NotFound <-> ~ has_product db id) /\
  (has_product db id -> exists p, getProduct db id = Ok p /\ Product.Id p = id) /\
  (forall p, FindAsync (Products db) id = Some p ->
     let db' := fst (deleteProduct now db id) in
     getProduct db' id = Ok (deactivated now p) /\
     Product.IsActive (deactivated now p) = false /\
     (forall q, In q (listProducts db') -> Product.Id q <> id)).
Proof.
  split; [|split].
  - rewrite <- FindAsync_absent. unfold getProduct.
    destruct (FindAsync (Products db) id); split; intros H; congruence.
  - intros Hhas. unfold getProduct.
    destruct (FindAsync (Products db) id) as [p|] eqn:E.
    + exists p. split; [reflexivity | now apply FindAsync_Some in E].
    + apply FindAsync_absent in E. contradiction.
  - intros p Hp db'. split; [|split].
    + apply getProduct_found. now apply deleteProduct_row.
    + reflexivity.
    + subst db'. rewrite (deleteProduct_found now db id p Hp). simpl.
      intros q. apply listProducts_after_delete.
Qed.

Lemma getProduct_NotFound_iff_witness :
  (exists p, getProduct shop 2 = Ok p /\ Product.Id p = 2) /\
  getProduct (fst (deleteProduct 200 shop 1)) 1 = Ok (deactivated 200 widget) /\
  Product.IsActive (deactivated 200 widget) = false /\
  (forall q, In q (listProducts (fst (deleteProduct 200 shop 1))) -> Product.Id q <> 1).
Proof.
  split.
  - apply (proj1 (proj2 (getProduct_NotFound_iff 200 shop 2))).
    exists gadget. split; [simpl; auto | reflexivity].
  - apply (proj2 (proj2 (getProduct_NotFound_iff 200 shop 1)) widget).
    reflexivity.
Defined.

(** ** Integer arithmetic *)

Lemma wrap32_range x : int_range (wrap32 x).
Proof.
  unfold int_range, wrap32.
  pose proof (Z.mod_pos_bound (x + 2147483648) 4294967296 ltac:(lia)). lia.
Qed.

Lemma wrap32_small x : int_range x -> wrap32 x = x.
Proof.
  unfold int_range, wrap32. intros H.
  rewrite Z.mod_small by lia. lia.
Qed.

Lemma int_sub_wrap32 x q : int_sub (wrap32 x) q = wrap32 (x - q).
Proof.
  unfold int_sub, wrap32. f_equal.
  replace ((x + 2147483648) mod 4294967296 - 2147483648 - q + 2147483648)
    with ((x + 2147483648) mod 4294967296 - q) by ring.
  rewrite Zminus_mod_idemp_l. f_equal. ring.
Qed.

(** ** Order processor: stock *)

Lemma FindAsync_sell now ps item id :
  FindAsync (sell now ps item) id =
  option_map
    (fun p => if TransactionItem.ProductId item =? id
              then sold now (TransactionItem.Quantity item) p else p)
    (FindAsync ps id).
Proof.
  unfold sell.
  destruct (FindAsync ps (TransactionItem.ProductId item)) as [found|] eqn:E.
  - rewrite FindAsync_save by auto with pos.
    rewrite (Z.eqb_sym id).
    destruct (TransactionItem.ProductId item =? id); [reflexivity|].
    now destruct (FindAsync ps id).
  - destruct (TransactionItem.ProductId item =? id) eqn:E'.
    + apply Z.eqb_eq in E'. subst id. now rewrite E.
    + now destruct (FindAsync ps id).
Qed.

Lemma FindAsync_sell_all now items : forall ps id,
  FindAsync (fold_left (sell now) items ps) id =
  option_map (sell_result now id items) (FindAsync ps id).
Proof.
  induction items as [|item items IH]; intros ps id; simpl.
  - now destruct (FindAsync ps id).
  - rewrite IH, FindAsync_sell. unfold sell_result at 2. simpl.
    now destruct (FindAsync ps id).
Qed.

Lemma sell_result_same now id items : forall p,
  same_but_stock p (sell_result now id items p).
Proof.
  unfold sell_result.
  induction items as [|item items IH]; intros p; simpl.
  - repeat split.
  - destruct (TransactionItem.ProductId item =? id); [|apply IH].
    specialize (IH (sold now (TransactionItem.Quantity item) p)).
    unfold same_but_stock in *. simpl in IH. exact IH.
Qed.

Lemma sell_result_unreferenced now id items p :
  lines_of id items = [] -> sell_result now id items p = p.
Proof.
  unfold sell_result, lines_of.
  induction items as [|item items IH]; simpl; [reflexivity|].
  destruct (TransactionItem.ProductId item =? id); [discriminate | exact IH].
Qed.

Lemma sell_result_wrapped now id items : forall p x,
  Product.Stock p = wrap32 x ->
  Product.Stock (sell_result now id items p) = wrap32 (x - quantity_for id items).
Proof.
  unfold sell_result, quantity_for, lines_of.
  induction items as [|item items IH]; intros p x Hp; simpl.
  - rewrite Hp. f_equal. ring.
  - destruct (TransactionItem.ProductId item =? id); simpl.
    + rewrite (IH _ (x - TransactionItem.Quantity item)).
      * f_equal. ring.
      * simpl. rewrite Hp. apply int_sub_wrap32.
    + now apply IH.
Qed.

Lemma sell_result_referenced now id items : forall p,
  lines_of id items <> [] ->
  Product.Stock (sell_result now id items p)
  = wrap32 (Product.Stock p - quantity_for id items) /\
  Product.UpdatedAt (sell_result now id items p) = now.
Proof.
  induction items as [|item items IH]; intros p Href.
  - now contradiction Href.
  - unfold sell_result, quantity_for, lines_of in *. simpl in *.
    destruct (TransactionItem.ProductId item =? id) eqn:E; simpl.
    + split.
      * pose proof (sell_result_wrapped now id items
                      (sold now (TransactionItem.Quantity item) p)
                      (Product.Stock p - TransactionItem.Quantity item)
                      eq_refl) as H.
        unfold sell_result, quantity_for, lines_of in H. rewrite H. f_equal. ring.
      * destruct (filter (fun item0 => TransactionItem.ProductId item0 =? id) items)
          as [|l ls] eqn:El.
        -- pose proof (sell_result_unreferenced now id items
                         (sold now (TransactionItem.Quantity item) p) El) as H.
           unfold sell_result in H. rewrite H. reflexivity.
        -- apply IH. discriminate.
    + apply IH. exact Href.
Qed.

Lemma line_track_items tid : forall items key,
  map line (track_items tid key items) = map line items.
Proof.
  induction items as [|item items IH]; intros key; simpl; [reflexivity|].
  now rewrite IH.
Qed.

Lemma createTransaction_products now db transaction :
  Products (fst (createTransaction now db transaction))
  = fold_left (sell now) (Transaction.Items transaction) (Products db).
Proof. reflexivity. Qed.

Lemma createTransaction_unreferenced now db transaction id :
  lines_of id (Transaction.Items transaction) = [] ->
  FindAsync (Products (fst (createTransaction now db transaction))) id
  = FindAsync (Products db) id.
Proof.
  intros H. rewrite createTransaction_products, FindAsync_sell_all.
  destruct (FindAsync (Products db) id); simpl; [|reflexivity].
  now rewrite sell_result_unreferenced.
Qed.

(** C1, refuted as stated: the widget has 5 in stock and the request has two
    lines for it, each of quantity 2147483647; the request is answered
    Created and the stock is 7 afterwards, not 5 less 4294967294. *)
Lemma createTransaction_stock_wraps :
  FindAsync (Products shop) 1 = Some widget /\
  Product.Stock widget = 5 /\
  map TransactionItem.Quantity (lines_of 1 (Transaction.Items overflowing_sale))
  = [2147483647; 2147483647] /\
  quantity_for 1 (Transaction.Items overflowing_sale) = 4294967294 /\
  is_Created (snd (createTransaction 200 shop overflowing_sale)) = true /\
  option_map Product.Stock
    (FindAsync (Products (fst (createTransaction 200 shop overflowing_sale))) 1)
  = Some 7 /\
  7 <> 5 - 4294967294.
Proof. repeat split. discriminate. Qed.

(** C1, amended: POST /api/transactions answers Created with the
    transaction, which is appended to the stored transactions with every
    line of the request (product id, name, price, quantity, total as sent);
    and each product that is in the store and named by at least one line has
    its stock reduced, in wrapping 32-bit [int] arithmetic, by the sum of the
    quantities of the lines that name it, which is exactly that sum whenever
    the difference is an [int]; its update timestamp is set to the time of
    the call, and no other field changes. *)
Theorem createTransaction_sells (now : DateTime) (db : AppDbContext)
    (transaction : Transaction.t) :
  let items := Transaction.Items transaction in
  let db' := fst (createTransaction now db transaction) in
  (exists t,
     snd (createTransaction now db transaction)
     = Created ("/api/transactions/" ++ ToString (Transaction.Id t)) t /\
     Transactions db' = (Transactions db ++ [t])%list /\
     map line (Transaction.Items t) = map line items) /\
  (forall id p,
     FindAsync (Products db) id = Some p ->
     lines_of id items <> [] ->
     exists p',
       FindAsync (Products db') id = Some p' /\
       Product.Stock p' = int_sub (Product.Stock p) (quantity_for id items) /\
       (int_range (Product.Stock p - quantity_for id items) ->
        Product.Stock p' = Product.Stock p - quantity_for id items) /\
       Product.UpdatedAt p' = now /\
       same_but_stock p p').
Proof.
  intros items db'. split.
  - subst db'. unfold createTransaction. cbv zeta.
    match goal with
    | |- exists t, snd (_, Created _ ?x) = _ /\ _ => exists x
    end.
    split; [reflexivity|]. split; [reflexivity|].
    simpl. apply line_track_items.
  - intros id p Hp Href.
    exists (sell_result now id items p).
    destruct (sell_result_referenced now id items p Href) as [Hstock Hupd].
    split; [|split; [|split; [|split]]].
    + subst db'. rewrite createTransaction_products, FindAsync_sell_all.
      now rewrite Hp.
    + exact Hstock.
    + intros Hrange. rewrite Hstock. now apply wrap32_small.
    + exact Hupd.
    + apply sell_result_same.
Qed.

Lemma createTransaction_sells_witness :
  exists p',
    FindAsync (Products (fst (createTransaction 200 shop two_widgets))) 1 = Some p' /\
    Product.Stock p' = 3 /\ Product.UpdatedAt p' = 200.
Proof.
  destruct (proj2 (createTransaction_sells 200 shop two_widgets) 1 widget
              eq_refl ltac:(discriminate))
    as [p' [Hfind [_ [Hexact [Hupd _]]]]].
  exists p'. split; [exact Hfind|]. split; [|exact Hupd].
  rewrite Hexact; [reflexivity|].
  unfold int_range. simpl. lia.
Defined.

Lemma createTransaction_stored now db request :
  exists t,
    Transactions (fst (createTransaction now db request))
    = (Transactions db ++ [t])%list /\
    same_amounts t request /\
    map line (Transaction.Items t) = map line (Transaction.Items request) /\
    Transaction.TransactionNumber t
    = TransactionNumber_of (Z.of_nat (List.length (Transactions db))) /\
    Transaction.CreatedAt t = now.
Proof.
  unfold createTransaction. cbv zeta.
  match goal with
  | |- exists t, Transactions (fst ({| Transactions := (_ ++ [?x])%list |}, _)) = _ /\ _ =>
      exists x
  end.
  split; [reflexivity|]. split; [repeat split|].
  split; [apply line_track_items|]. split; reflexivity.
Qed.

(** ** Order processor: no validation *)






(** ** Order processor: money is taken from the request *)

Lemma fold_left_add_map {A : Type} (g : A -> float) (xs : list A) : forall acc,
  fold_left PrimFloat.add (map g xs) acc
  = fold_left (fun sum x => PrimFloat.add sum (g x)) xs acc.
Proof.
  induction xs as [|x xs IH]; intros acc; simpl; [reflexivity | apply IH].
Qed.

Lemma map_track_items {B : Type} (g : TransactionItem.t -> B) tid :
  (forall i k, g {| TransactionItem.Id := k;
                    TransactionItem.TransactionId := tid;
                    TransactionItem.ProductId := TransactionItem.ProductId i;
                    TransactionItem.ProductName := TransactionItem.ProductName i;
                    TransactionItem.Price := TransactionItem.Price i;
                    TransactionItem.Quantity := TransactionItem.Quantity i;
                    TransactionItem.Total := TransactionItem.Total i |} = g i) ->
  forall items key, map g (track_items tid key items) = map g items.
Proof.
  intros Hg. induction items as [|item items IH]; intros key; simpl; [reflexivity|].
  now rewrite Hg, IH.
Qed.

(** C3, refuted as stated: the widget costs 9.99 on the server, so two of
    them come to 19.98; a request that sends a line total of 1 and a
    subtotal of 5 is stored with exactly those amounts. *)
Lemma createTransaction_stores_sent_totals :
  let db' := fst (createTransaction 200 shop underpriced_sale) in
  map (server_line_total shop) (Transaction.Items underpriced_sale)
  = [Some nineteen_98] /\
  map (fun t => map TransactionItem.Total (Transaction.Items t)) (Transactions db')
  = [[1%float]] /\
  map Transaction.Subtotal (Transactions db') = [5%float] /\
  PrimFloat.eqb 1 nineteen_98 = false /\
  PrimFloat.eqb 5 (running_sum [1%float]) = false.
Proof. repeat split. Qed.

(** C3, amended: the server never reads a product's price.  The line prices,
    line totals and subtotal of the stored transaction are the ones the
    request carried.  It is the POS client that computes them: each line
    total is the cart item's price times its quantity, and the subtotal is
    the running sum of these line totals. *)
Theorem line_totals_come_from_the_request :
  (forall now db transaction,
     exists t,
       Transactions (fst (createTransaction now db transaction))
       = (Transactions db ++ [t])%list /\
       map TransactionItem.Total (Transaction.Items t)
       = map TransactionItem.Total (Transaction.Items transaction) /\
       map TransactionItem.Price (Transaction.Items t)
       = map TransactionItem.Price (Transaction.Items transaction) /\
       Transaction.Subtotal t = Transaction.Subtotal transaction) /\
  (forall cart data,
     Client.POSScreen.processTransaction cart = Client.Send data ->
     map Client.POSScreen.Item.total (Client.POSScreen.TransactionData.items data)
     = map (fun item =>
              PrimFloat.mul (Client.POSScreen.price (Client.POSScreen.product item))
                            (Client.POSScreen.quantity item)) cart /\
     Client.POSScreen.TransactionData.subtotal data
     = running_sum (map Client.POSScreen.Item.total (Client.POSScreen.TransactionData.items data))).
Proof.
  split.
  - intros now db transaction. unfold createTransaction. cbv zeta.
    match goal with
    | |- exists t, Transactions (fst ({| Transactions := (_ ++ [?x])%list |}, _)) = _ /\ _ =>
        exists x
    end.
    split; [reflexivity|]. simpl.
    split; [|split]; try reflexivity; now apply map_track_items.
  - intros cart data H. unfold Client.POSScreen.processTransaction in H.
    destruct (List.length cart =? 0)%nat; [discriminate|].
    injection H as <-. simpl. split.
    + now rewrite map_map.
    + unfold running_sum, Client.POSScreen.calculateTotal.
      now rewrite map_map, fold_left_add_map.
Qed.

Lemma line_totals_come_from_the_request_witness :
  exists data,
    Client.POSScreen.processTransaction cart_two_widgets = Client.Send data /\
    map Client.POSScreen.Item.total (Client.POSScreen.TransactionData.items data)
    = [nineteen_98] /\
    Client.POSScreen.TransactionData.subtotal data
    = running_sum (map Client.POSScreen.Item.total (Client.POSScreen.TransactionData.items data)).
Proof.
  eexists. split; [reflexivity|].
  exact (proj2 line_totals_come_from_the_request cart_two_widgets _ eq_refl).
Defined.

(** ** Order processor: the total *)

Lemma SFeqb_refl_finite s m e : SFeqb (S754_finite s m e) (S754_finite s m e) = true.
Proof.
  unfold SFeqb, SFcompare.
  rewrite Z.compare_refl, Pos.compare_cont_refl. now destruct s.
Qed.

Lemma minus_zero_plus_zero (x : float) :
  PrimFloat.eqb x x = true ->
  PrimFloat.eqb x (PrimFloat.add (PrimFloat.sub x 0) 0) = true.
Proof.
  rewrite !eqb_spec, add_spec, sub_spec.
  change (Prim2SF 0) with (S754_zero false).
  destruct (Prim2SF x) as [s|s| |s m e]; intros H.
  - now destruct s.
  - now destruct s.
  - discriminate.
  - simpl. apply SFeqb_refl_finite.
Qed.

(** C5, refuted as stated: a request with subtotal 10, no discount, no tax
    and total 3 is answered Created and stored with those amounts. *)
Lemma createTransaction_stores_unbalanced_total :
  is_Created (snd (createTransaction 200 shop unbalanced_sale)) = true /\
  map balanced (Transactions (fst (createTransaction 200 shop unbalanced_sale)))
  = [false].
Proof. split; reflexivity. Qed.

(** C5, amended: the server stores subtotal, tax, discount and total as the
    request gave them and checks no relation between them.  The POS client
    sends tax 0, discount 0 and a total equal to its subtotal; a stored
    transaction whose request carried these client amounts satisfies
    total = subtotal - discount + tax (as numbers, the subtotal not being
    NaN). *)
Theorem total_balanced_for_pos_requests :
  (forall now db request,
     exists t,
       Transactions (fst (createTransaction now db request))
       = (Transactions db ++ [t])%list /\
       same_amounts t request) /\
  (forall cart data,
     Client.POSScreen.processTransaction cart = Client.Send data ->
     Client.POSScreen.TransactionData.tax data = 0%float /\
     Client.POSScreen.TransactionData.discount data = 0%float /\
     Client.POSScreen.TransactionData.total data = Client.POSScreen.TransactionData.subtotal data /\
     forall now db request,
       carries request data ->
       Client.isNaN (Client.POSScreen.TransactionData.subtotal data) = false ->
       exists t,
         Transactions (fst (createTransaction now db request))
         = (Transactions db ++ [t])%list /\
         balanced t = true).
Proof.
  split.
  - intros now db request.
    destruct (createTransaction_stored now db request) as [t [Ht [Ha _]]].
    now exists t.
  - intros cart data H. unfold Client.POSScreen.processTransaction in H.
    destruct (List.length cart =? 0)%nat; [discriminate|].
    injection H as <-. simpl.
    split; [reflexivity|]. split; [reflexivity|]. split; [reflexivity|].
    intros now db request [Hsub [Htax [Hdis Htot]]] Hnan. simpl in *.
    destruct (createTransaction_stored now db request)
      as [t [Ht [[Hs [Hx [Hd Hl]]] _]]].
    exists t. split; [exact Ht|].
    unfold balanced. rewrite Hs, Hx, Hd, Hl, Hsub, Htax, Hdis, Htot.
    apply minus_zero_plus_zero.
    unfold Client.isNaN in Hnan. now apply negb_false_iff in Hnan.
Qed.

Lemma total_balanced_for_pos_requests_witness :
  exists data,
    Client.POSScreen.processTransaction cart_two_widgets = Client.Send data /\
    Client.POSScreen.TransactionData.total data = nineteen_98 /\
    exists t,
      Transactions (fst (createTransaction 200 shop two_widgets)) = [t] /\
      balanced t = true.
Proof.
  eexists. split; [reflexivity|]. split; [reflexivity|].
  refine (proj2 (proj2 (proj2
            (proj2 total_balanced_for_pos_requests cart_two_widgets _ eq_refl)))
            200 shop two_widgets _ _).
  - repeat split.
  - reflexivity.
Defined.

(** ** Transaction numbers: decimal digits *)

Lemma zeros_snoc m acc : zeros m ++ String "0" acc = String "0" (zeros m ++ acc).
Proof. induction m as [|m IH]; simpl; [reflexivity | now rewrite IH]. Qed.

Lemma fixed_zero m : forall acc, fixed m 0 acc = zeros m ++ acc.
Proof.
  induction m as [|m IH]; intros acc; simpl; [reflexivity|].
  change (0 / 10) with 0. change (digit (0 mod 10)) with "0"%char.
  rewrite IH. apply zeros_snoc.
Qed.

Lemma fixed_acc k : forall n acc, fixed k n acc = fixed k n "" ++ acc.
Proof.
  induction k as [|k IH]; intros n acc; simpl; [reflexivity|].
  rewrite (IH _ (String _ acc)), (IH _ (String _ "")).
  generalize (fixed k (n / 10) "") as s. intros s.
  induction s as [|c s IHs]; simpl; [reflexivity | now rewrite IHs].
Qed.

Lemma length_fixed k : forall n acc,
  String.length (fixed k n acc) = (k + String.length acc)%nat.
Proof.
  induction k as [|k IH]; intros n acc; simpl; [reflexivity|].
  rewrite IH. simpl. lia.
Qed.

Lemma fixed_leading_zeros j : forall m n acc,
  0 <= n < 10 ^ Z.of_nat j -> fixed (m + j) n acc = zeros m ++ fixed j n acc.
Proof.
  induction j as [|j IH]; intros m n acc Hn.
  - simpl in Hn. assert (n = 0) by lia. subst n.
    rewrite Nat.add_0_r. simpl. apply fixed_zero.
  - rewrite Nat.add_succ_r. simpl. apply IH.
    rewrite Nat2Z.inj_succ, Z.pow_succ_r in Hn by lia.
    split; [apply Z.div_pos; lia | apply Z.div_lt_upper_bound; lia].
Qed.

(** Enough fuel: the digits of [n] are its [j] digits, [j] the least
    number of digits that writes [n]. *)
Lemma digits_fixed fuel : forall n acc,
  (1 <= fuel)%nat -> 0 <= n < 10 ^ Z.of_nat fuel ->
  exists j, (1 <= j <= fuel)%nat /\ n < 10 ^ Z.of_nat j /\
            (j = 1%nat \/ 10 ^ (Z.of_nat j - 1) <= n) /\
            digits fuel n acc = fixed j n acc.
Proof.
  induction fuel as [|fuel IH]; intros n acc Hfuel Hn; [lia|].
  simpl. destruct (n / 10 =? 0) eqn:E.
  - apply Z.eqb_eq in E. exists 1%nat.
    assert (n < 10).
    { pose proof (Z.div_mod n 10 ltac:(lia)).
      pose proof (Z.mod_pos_bound n 10 ltac:(lia)). lia. }
    repeat split; lia.
  - apply Z.eqb_neq in E.
    assert (Hq : 0 < n / 10).
    { pose proof (Z.div_pos n 10 ltac:(lia) ltac:(lia)). lia. }
    assert (Hn10 : 10 <= n).
    { destruct (Z_lt_le_dec n 10) as [Hlt|]; [|assumption].
      rewrite Z.div_small in Hq by lia. lia. }
    rewrite Nat2Z.inj_succ, Z.pow_succ_r in Hn by lia.
    assert (Hf : (1 <= fuel)%nat).
    { destruct fuel; [simpl in Hn; lia | lia]. }
    destruct (IH (n / 10) (String (digit (n mod 10)) acc) Hf) as [j [Hj [Hlt [Hmin Hd]]]].
    { split; [lia | apply Z.div_lt_upper_bound; lia]. }
    exists (S j). rewrite Hd. simpl fixed.
    rewrite Nat2Z.inj_succ, Z.pow_succ_r by lia.
    replace (Z.succ (Z.of_nat j) - 1) with (Z.of_nat j) by lia.
    pose proof (Z.div_mod n 10 ltac:(lia)) as Hdm.
    pose proof (Z.mod_pos_bound n 10 ltac:(lia)) as Hmod.
    repeat split; try lia.
    right. destruct Hmin as [->|Hmin]; [simpl; lia|].
    replace (Z.of_nat j) with (Z.succ (Z.of_nat j - 1)) by lia.
    rewrite Z.pow_succ_r by lia. lia.
Qed.

Lemma format_six_digits n :
  0 <= n <= 999999 -> format_000000 n = six_digits n.
Proof.
  intros Hn. unfold format_000000, six_digits, decimal.
  replace (n <? 0) with false by (symmetry; apply Z.ltb_ge; lia).
  destruct (digits_fixed 10 n "" ltac:(lia) ltac:(simpl; lia))
    as [j [Hj [Hlt [Hmin Hd]]]].
  rewrite Hd. unfold pad_left. rewrite length_fixed. simpl String.length.
  assert (Hj6 : (j <= 6)%nat).
  { destruct Hmin as [->|Hmin]; [lia|].
    destruct (le_lt_dec j 6) as [|Hgt]; [assumption|].
    assert (10 ^ 6 <= 10 ^ (Z.of_nat j - 1)) by (apply Z.pow_le_mono_r; lia).
    simpl in *. lia. }
  rewrite Nat.add_0_r.
  rewrite <- fixed_leading_zeros by lia.
  f_equal. lia.
Qed.

Lemma N_of_ascii_digit d : 0 <= d <= 9 -> Z.of_N (N_of_ascii (digit d)) = 48 + d.
Proof.
  intros Hd. unfold digit. rewrite N_ascii_embedding by lia. lia.
Qed.

Lemma read_decimal_fixed k : forall a n acc,
  0 <= n < 10 ^ Z.of_nat k ->
  read_decimal a (fixed k n acc) = read_decimal (a * 10 ^ Z.of_nat k + n) acc.
Proof.
  induction k as [|k IH]; intros a n acc Hn.
  - simpl in *. f_equal. lia.
  - rewrite Nat2Z.inj_succ, Z.pow_succ_r in * by lia.
    assert (Hp : 0 < 10 ^ Z.of_nat k) by (apply Z.pow_pos_nonneg; lia).
    pose proof (Z.div_mod n 10 ltac:(lia)) as Hdm.
    pose proof (Z.mod_pos_bound n 10 ltac:(lia)) as Hmod.
    simpl fixed. rewrite IH.
    + cbn [read_decimal]. rewrite N_of_ascii_digit by lia. f_equal. lia.
    + split; [apply Z.div_pos; lia | apply Z.div_lt_upper_bound; lia].
Qed.

Lemma read_decimal_zeros m s : read_decimal 0 (zeros m ++ s) = read_decimal 0 s.
Proof. induction m as [|m IH]; simpl; [reflexivity | exact IH]. Qed.

Lemma substring_all s : substring 0 (String.length s) s = s.
Proof. induction s as [|c s IH]; simpl; [reflexivity | now rewrite IH]. Qed.

Lemma number_value_TXN s : number_value ("TXN-" ++ s) = read_decimal 0 s.
Proof.
  unfold number_value. simpl. rewrite Nat.sub_0_r.
  now rewrite substring_all.
Qed.

(** The counter can be read back from the number, up to the largest [int]. *)
Lemma number_value_of count :
  0 <= count + 1 < 2147483648 ->
  number_value (TransactionNumber_of count) = count + 1.
Proof.
  intros Hc. unfold TransactionNumber_of. rewrite number_value_TXN.
  unfold int_add. rewrite wrap32_small by (unfold int_range; lia).
  unfold format_000000, decimal, pad_left.
  replace (count + 1 <? 0) with false by (symmetry; apply Z.ltb_ge; lia).
  destruct (digits_fixed 10 (count + 1) "" ltac:(lia) ltac:(simpl; lia))
    as [j [Hj [Hlt [_ Hd]]]].
  rewrite Hd, read_decimal_zeros, read_decimal_fixed by lia.
  simpl. lia.
Qed.

(** ** Transaction numbers: order *)

Lemma compare_app_same s : forall t1 t2,
  String.compare (s ++ t1) (s ++ t2) = String.compare t1 t2.
Proof.
  induction s as [|c s IH]; intros t1 t2; simpl; [reflexivity|].
  unfold Ascii.compare. rewrite N.compare_refl. apply IH.
Qed.

Lemma compare_app_lt : forall s1 s2 t1 t2,
  String.length s1 = String.length s2 ->
  String.compare s1 s2 = Lt ->
  String.compare (s1 ++ t1) (s2 ++ t2) = Lt.
Proof.
  induction s1 as [|c1 s1 IH]; intros [|c2 s2] t1 t2 Hlen Hlt;
    simpl in *; try discriminate.
  destruct (Ascii.compare c1 c2); try discriminate; [|reflexivity].
  apply IH; [now injection Hlen | assumption].
Qed.

Lemma compare_digit a b :
  0 <= a < b -> b <= 9 -> Ascii.compare (digit a) (digit b) = Lt.
Proof.
  intros Ha Hb. unfold Ascii.compare, digit.
  rewrite !N_ascii_embedding by lia. apply N.compare_lt_iff. lia.
Qed.

Lemma fixed_lt k : forall a b,
  0 <= a < b -> b < 10 ^ Z.of_nat k ->
  String.compare (fixed k a "") (fixed k b "") = Lt.
Proof.
  induction k as [|k IH]; intros a b Hab Hb.
  - simpl in Hb. lia.
  - rewrite Nat2Z.inj_succ, Z.pow_succ_r in Hb by lia.
    simpl fixed. rewrite (fixed_acc k (a / 10)), (fixed_acc k (b / 10)).
    pose proof (Z.div_mod a 10 ltac:(lia)) as Ha.
    pose proof (Z.div_mod b 10 ltac:(lia)) as Hb'.
    pose proof (Z.mod_pos_bound a 10 ltac:(lia)) as Hma.
    pose proof (Z.mod_pos_bound b 10 ltac:(lia)) as Hmb.
    destruct (Z.eq_dec (a / 10) (b / 10)) as [Heq|Hne].
    + rewrite Heq, compare_app_same. simpl.
      rewrite compare_digit by lia. reflexivity.
    + apply compare_app_lt.
      * now rewrite !length_fixed.
      * apply IH.
        -- split; [apply Z.div_pos; lia|].
           pose proof (Z.div_le_mono a b 10 ltac:(lia) ltac:(lia)). lia.
        -- apply Z.div_lt_upper_bound; lia.
Qed.

Lemma TransactionNumber_of_six count :
  0 <= count + 1 <= 999999 ->
  TransactionNumber_of count = "TXN-" ++ six_digits (count + 1).
Proof.
  intros Hc. unfold TransactionNumber_of, int_add.
  rewrite wrap32_small by (unfold int_range; lia).
  now rewrite format_six_digits.
Qed.

Lemma TransactionNumber_of_lt c1 c2 :
  0 <= c1 < c2 -> c2 + 1 <= 999999 ->
  String.ltb (TransactionNumber_of c1) (TransactionNumber_of c2) = true.
Proof.
  intros H1 H2. rewrite !TransactionNumber_of_six by lia.
  unfold String.ltb. rewrite compare_app_same.
  unfold six_digits. rewrite fixed_lt; [reflexivity | lia | simpl; lia].
Qed.

Lemma createTransaction_numbered now db request :
  numbered db -> numbered (fst (createTransaction now db request)).
Proof.
  intros Hnum i t Hi.
  destruct (createTransaction_stored now db request) as [t' [Ht' [_ [_ [Hn _]]]]].
  rewrite Ht' in Hi.
  destruct (Nat.lt_ge_cases i (List.length (Transactions db))) as [Hlt|Hge].
  - rewrite nth_error_app1 in Hi by assumption. now apply Hnum.
  - rewrite nth_error_app2 in Hi by assumption.
    destruct (i - List.length (Transactions db))%nat as [|d] eqn:Ed.
    + simpl in Hi. injection Hi as <-. rewrite Hn. f_equal. lia.
    + simpl in Hi. now destruct d.
Qed.

(** The catalog endpoints leave the transactions, hence their numbering,
    alone. *)
Lemma numbered_catalog now db id product :
  numbered db ->
  numbered (fst (createProduct now db product)) /\
  numbered (fst (updateProduct now db id product)) /\
  numbered (fst (deleteProduct now db id)).
Proof.
  intros H. unfold updateProduct, deleteProduct.
  destruct (FindAsync (Products db) id); repeat split; exact H.
Qed.

Lemma numbered_after_sales n : numbered (after_sales n).
Proof.
  induction n as [|n IH].
  - intros i t Hi. now destruct i.
  - unfold after_sales. rewrite Nat.iter_succ.
    now apply createTransaction_numbered.
Qed.

Lemma length_after_sales n : List.length (Transactions (after_sales n)) = n.
Proof.
  induction n as [|n IH]; [reflexivity|].
  unfold after_sales. rewrite Nat.iter_succ. fold (after_sales n).
  destruct (createTransaction_stored 200 (after_sales n) empty_sale) as [t [Ht _]].
  rewrite Ht, length_app, IH. simpl. lia.
Qed.

(** C4, refuted as stated: after 999999 sales the store holds the number
    TXN-999999; the next sale is numbered TXN-1000000, which does not sort
    after it as a string. *)
Lemma millionth_number_sorts_first :
  let db := after_sales (Z.to_nat 999999) in
  exists earlier t,
    In earlier (Transactions db) /\
    Transactions (fst (createTransaction 200 db empty_sale))
    = (Transactions db ++ [t])%list /\
    Transaction.TransactionNumber earlier = "TXN-999999" /\
    Transaction.TransactionNumber t = "TXN-1000000" /\
    String.ltb (Transaction.TransactionNumber earlier)
               (Transaction.TransactionNumber t) = false.
Proof.
  intros db.
  assert (Hlen : Z.of_nat (List.length (Transactions db)) = 999999).
  { subst db. rewrite length_after_sales. apply Z2Nat.id. lia. }
  assert (Hnum : numbered db) by apply numbered_after_sales.
  clearbody db.
  destruct (createTransaction_stored 200 db empty_sale) as [t [Ht [_ [_ [Hn _]]]]].
  rewrite Hlen in Hn.
  destruct (nth_error (Transactions db) (Z.to_nat 999998)) as [earlier|] eqn:E.
  - exists earlier, t.
    assert (He : Transaction.TransactionNumber earlier = "TXN-999999").
    { rewrite (Hnum _ _ E). rewrite Z2Nat.id by lia. reflexivity. }
    split; [exact (nth_error_In _ _ E)|].
    split; [exact Ht|]. split; [exact He|].
    split; [rewrite Hn; reflexivity|].
    rewrite He, Hn. reflexivity.
  - apply nth_error_None in E. lia.
Qed.

(** C4, amended: the number given to a new transaction is TXN- followed by
    the current transaction count plus one in the format 000000 (six digits
    up to 999999, more beyond).  In a store whose transactions were all
    numbered this way, the counter written in the new number is greater than
    the counter of every stored number as long as it is an [int], and the
    new number sorts after every stored number as a string as long as the
    counter has at most six digits. *)
Theorem transaction_numbers_increase (now : DateTime) (db : AppDbContext)
    (request : Transaction.t) :
  numbered db ->
  let count := Z.of_nat (List.length (Transactions db)) in
  let db' := fst (createTransaction now db request) in
  exists t,
    Transactions db' = (Transactions db ++ [t])%list /\
    Transaction.TransactionNumber t = "TXN-" ++ format_000000 (int_add count 1) /\
    numbered db' /\
    (count + 1 < 2147483648 ->
     number_value (Transaction.TransactionNumber t) = count + 1 /\
     forall earlier, In earlier (Transactions db) ->
       number_value (Transaction.TransactionNumber earlier)
       < number_value (Transaction.TransactionNumber t)) /\
    (count + 1 <= 999999 ->
     Transaction.TransactionNumber t = "TXN-" ++ six_digits (count + 1) /\
     forall earlier, In earlier (Transactions db) ->
       String.ltb (Transaction.TransactionNumber earlier)
                  (Transaction.TransactionNumber t) = true).
Proof.
  intros Hnum count db'.
  destruct (createTransaction_stored now db request) as [t [Ht [_ [_ [Hn _]]]]].
  fold count in Hn. exists t.
  split; [exact Ht|]. split; [exact Hn|].
  split; [now apply createTransaction_numbered|].
  assert (Hearlier : forall earlier, In earlier (Transactions db) ->
            exists i, 0 <= i < count /\
                      Transaction.TransactionNumber earlier = TransactionNumber_of i).
  { intros earlier Hin. apply In_nth_error in Hin. destruct Hin as [i Hi].
    exists (Z.of_nat i). split; [|now apply Hnum].
    assert (i < List.length (Transactions db))%nat
      by (apply nth_error_Some; congruence).
    subst count. lia. }
  split.
  - intros Hc. fold (TransactionNumber_of count) in Hn. rewrite Hn.
    rewrite number_value_of by lia. split; [reflexivity|].
    intros earlier Hin. destruct (Hearlier earlier Hin) as [i [Hi ->]].
    rewrite number_value_of by lia. lia.
  - intros Hc. fold (TransactionNumber_of count) in Hn. rewrite Hn. split.
    + apply TransactionNumber_of_six. lia.
    + intros earlier Hin. destruct (Hearlier earlier Hin) as [i [Hi ->]].
      apply TransactionNumber_of_lt; lia.
Qed.

Lemma transaction_numbers_increase_witness :
  exists t,
    Transactions (fst (createTransaction 300 (after_sales 1) two_widgets))
    = (Transactions (after_sales 1) ++ [t])%list /\
    Transaction.TransactionNumber t = "TXN-000002" /\
    number_value (Transaction.TransactionNumber t) = 2 /\
    forall earlier, In earlier (Transactions (after_sales 1)) ->
      String.ltb (Transaction.TransactionNumber earlier)
                 (Transaction.TransactionNumber t) = true.
Proof.
  destruct (transaction_numbers_increase 300 (after_sales 1) two_widgets
              (numbered_after_sales 1))
    as [t [Ht [Hn [_ [Hvalue Hsort]]]]].
  exists t. split; [exact Ht|]. split; [exact Hn|].
  split.
  - apply Hvalue. simpl. lia.
  - apply Hsort. simpl. lia.
Defined.

(** ** Reporting *)

Lemma today_filter now created :
  created <= now ->
  (created >=? Date now) = (created / TicksPerDay =? now / TicksPerDay).
Proof.
  intros Hle. unfold Date, TicksPerDay.
  pose proof (Z.div_mod now 864000000000 ltac:(lia)) as Hn.
  pose proof (Z.mod_pos_bound now 864000000000 ltac:(lia)) as Hnb.
  pose proof (Z.div_mod created 864000000000 ltac:(lia)) as Hc.
  pose proof (Z.mod_pos_bound created 864000000000 ltac:(lia)) as Hcb.
  destruct (created / 864000000000 =? now / 864000000000) eqn:E.
  - apply Z.eqb_eq in E. apply Z.geb_le. lia.
  - apply Z.eqb_neq in E.
    destruct (created >=? now - now mod 864000000000) eqn:G; [|reflexivity].
    apply Z.geb_le in G. exfalso. apply E.
    pose proof (Z.div_le_mono created now 864000000000 ltac:(lia) Hle).
    lia.
Qed.

Lemma createTransaction_none_in_future now now' db request :
  now <= now' -> none_in_future now db ->
  none_in_future now' (fst (createTransaction now db request)).
Proof.
  intros Hle Hdb t Hin.
  destruct (createTransaction_stored now db request) as [t' [Ht' [_ [_ [_ Hc]]]]].
  rewrite Ht' in Hin. apply in_app_or in Hin. destruct Hin as [Hin|[<-|[]]].
  - specialize (Hdb t Hin). lia.
  - lia.
Qed.

Lemma filter_filter {A : Type} (f g : A -> bool) (l : list A) :
  filter f (filter g l) = filter (fun x => f x && g x) l.
Proof.
  induction l as [|x l IH]; simpl; [reflexivity|].
  destruct (g x); simpl.
  - destruct (f x); simpl; now rewrite IH.
  - rewrite andb_false_r. exact IH.
Qed.

(** C9: GET /api/dashboard/stats returns the number of active products, the
    number of all transactions, the sum of the totals and the number of the
    transactions created on the current UTC day (no stored transaction
    being dated after the time of the call), and the number of active
    products with stock below 10; creating an active product with stock
    below 10, such as 5, raises the low-stock count by exactly 1. *)
Theorem dashboardStats_exact (now : DateTime) (db : AppDbContext) :
  none_in_future now db ->
  let stats := dashboardStats now db in
  let today := filter (same_utc_day now) (Transactions db) in
  totalProducts stats = Z.of_nat (List.length (active_products db)) /\
  totalTransactions stats = Z.of_nat (List.length (Transactions db)) /\
  todayRevenue stats = running_sum (map Transaction.Total today) /\
  todayTransactions stats = Z.of_nat (List.length today) /\
  lowStockCount stats = Z.of_nat (List.length (filter low_stock (active_products db))) /\
  (forall created product,
     Product.IsActive product = true -> Product.Stock product < 10 ->
     lowStockCount (dashboardStats now (fst (createProduct created db product)))
     = lowStockCount stats + 1).
Proof.
  intros Hfuture stats today.
  assert (Htoday :
    filter (fun t => Transaction.CreatedAt t >=? Date now) (Transactions db) = today).
  { apply filter_ext_in. intros t Hin. apply today_filter. now apply Hfuture. }
  subst stats. unfold dashboardStats. cbv zeta. simpl.
  rewrite Htoday.
  split; [reflexivity|]. split; [reflexivity|].
  split; [unfold Sum, running_sum; now rewrite fold_left_add_map|].
  split; [reflexivity|].
  split; [unfold CountAsync, active_products; now rewrite filter_filter|].
  intros created product Hact Hstock.
  unfold CountAsync. rewrite filter_app, length_app. simpl.
  rewrite Hact. replace (Product.Stock product <? 10) with true
    by (symmetry; apply Z.ltb_lt; lia).
  simpl. lia.
Qed.

Lemma dashboardStats_exact_witness :
  totalTransactions (dashboardStats 864000000200 two_days) = 2 /\
  todayTransactions (dashboardStats 864000000200 two_days) = 1 /\
  todayRevenue (dashboardStats 864000000200 two_days) = 3%float /\
  lowStockCount (dashboardStats 864000000200 two_days) = 1 /\
  lowStockCount
    (dashboardStats 864000000200
       (fst (createProduct 864000000150 two_days
               (bind_Product 864000000150 five_in_stock))))
  = 1 + 1.
Proof.
  assert (H : none_in_future 864000000200 two_days).
  { intros t [<-|[<-|[]]]; simpl; lia. }
  destruct (dashboardStats_exact 864000000200 two_days H)
    as [_ [Hall [Hrevenue [Htoday [Hlow Hadd]]]]].
  split; [rewrite Hall; reflexivity|].
  split; [rewrite Htoday; reflexivity|].
  split; [rewrite Hrevenue; reflexivity|].
  split; [rewrite Hlow; reflexivity|].
  rewrite (Hadd 864000000150 (bind_Product 864000000150 five_in_stock)
             eq_refl ltac:(simpl; lia)).
  rewrite Hlow. reflexivity.
Defined.

(** ** Catalog: validation lives in the forms *)






Lemma updateProduct_found now db id update p :
  FindAsync (Products db) id = Some p ->
  updateProduct now db id update =
  (with_Products db (save id (merge now update) (Products db)),
   Ok (merge now update p)).
Proof. intros H. unfold updateProduct. now rewrite H. Qed.




(** ** Catalog: partial update *)

(** What the update endpoint does with the properties a body leaves out:
    price, stock and image keep their stored values, while name, description,
    category and the active flag take the values of the model's
    initializers. *)
Lemma merge_missing now body p :
  let p' := merge now (bind_Product now body) p in
  (price body = None -> Product.Price p' = Product.Price p) /\
  (stock body = None -> Product.Stock p' = Product.Stock p) /\
  (image body = Missing -> Product.Image p' = Product.Image p) /\
  (name body = Missing -> Product.Name p' = Some "") /\
  (description body = Missing -> Product.Description p' = Some "") /\
  (category body = Missing -> Product.Category p' = Some "General") /\
  (isActive body = None -> Product.IsActive p' = true) /\
  Product.UpdatedAt p' = now /\ Product.Id p' = Product.Id p /\
  Product.CreatedAt p' = Product.CreatedAt p.
Proof.
  simpl. repeat split; intros H; rewrite H; reflexivity.
Qed.

Lemma updateProduct_absent now db id update :
  ~ has_product db id -> updateProduct now db id update = (db, NotFound).
Proof.
  intros H. apply FindAsync_absent in H. unfold updateProduct. now rewrite H.
Qed.

(** C7, the update at which the code departs from the claim: the edit form,
    with only the price of the retired gadget changed, sends a body holding
    a price and nothing else; the endpoint answers Ok, sets the price and
    keeps stock and image, but the name and description become empty, the
    category becomes General and the product becomes active again. *)
Theorem updateProduct_resets_missing_fields :
  Client.EditProductScreen.handleSubmit plain_trim digits_Number client_gadget gadget_form
  = Client.Send
      {| Client.UpdateData.name := None; Client.UpdateData.description := None;
         Client.UpdateData.price := Some 12%float; Client.UpdateData.stock := None;
         Client.UpdateData.category := None; Client.UpdateData.image := Some None |} /\
  FindAsync (Products shop) 2 = Some gadget /\
  exists p',
    snd (updateProduct 300 shop 2 (bind_Product 300 price_only)) = Ok p' /\
    FindAsync (Products (fst (updateProduct 300 shop 2 (bind_Product 300 price_only)))) 2
    = Some p' /\
    Product.Price p' = 12%float /\
    Product.Stock p' = Product.Stock gadget /\
    Product.Image p' = Product.Image gadget /\
    Product.UpdatedAt p' = 300 /\
    (Product.Name gadget = Some "Gadget" /\ Product.Name p' = Some "") /\
    (Product.Description gadget = Some "old" /\ Product.Description p' = Some "") /\
    (Product.Category gadget = Some "Electronics" /\
     Product.Category p' = Some "General") /\
    (Product.IsActive gadget = false /\ Product.IsActive p' = true).
Proof.
  split; [reflexivity|]. split; [reflexivity|].
  eexists. repeat split.
Qed.

(** * Further properties of the endpoints *)

(** ** Keys *)

Lemma map_Id_save id f ps :
  keeps_Id f -> map Product.Id (save id f ps) = map Product.Id ps.
Proof.
  intros Hf. unfold save. rewrite map_map. apply map_ext.
  intros p. destruct (Product.Id p =? id); [apply Hf | reflexivity].
Qed.

Lemma sell_is_save now ps item :
  sell now ps item
  = save (TransactionItem.ProductId item) (sold now (TransactionItem.Quantity item)) ps.
Proof.
  unfold sell.
  destruct (FindAsync ps (TransactionItem.ProductId item)) eqn:E; [reflexivity|].
  rewrite FindAsync_None in E. unfold save.
  rewrite <- (map_id ps) at 1. apply map_ext_in. intros p Hin.
  specialize (E p Hin). apply Z.eqb_neq in E. now rewrite E.
Qed.

Lemma map_Id_sell_all now items : forall ps,
  map Product.Id (fold_left (sell now) items ps) = map Product.Id ps.
Proof.
  induction items as [|item items IH]; intros ps; simpl; [reflexivity|].
  rewrite IH, sell_is_save. apply map_Id_save. auto with pos.
Qed.

Lemma Forall_Id_le_map (ps qs : list Product.t) (k : Z) :
  map Product.Id qs = map Product.Id ps ->
  Forall (fun p => Product.Id p <= k) ps -> Forall (fun p => Product.Id p <= k) qs.
Proof.
  intros Hmap H.
  assert (H' : Forall (fun i => i <= k) (map Product.Id ps)).
  { apply Forall_forall. intros i Hi. apply in_map_iff in Hi.
    destruct Hi as [p [<- Hp]]. rewrite Forall_forall in H. now apply H. }
  rewrite <- Hmap in H'. apply Forall_forall. intros q Hq.
  rewrite Forall_forall in H'. apply H'. now apply in_map.
Qed.

Lemma NoDup_snoc_fresh (ids : list Z) (k : Z) :
  NoDup ids -> Forall (fun i => i <= k) ids -> NoDup (ids ++ [k + 1]).
Proof.
  intros Hnd Hle. apply NoDup_app; [assumption | repeat constructor; intros [] | ].
  intros i Hi [<-|[]]. rewrite Forall_forall in Hle. specialize (Hle _ Hi). lia.
Qed.

Lemma well_keyed_createProduct now db product :
  well_keyed db -> well_keyed (fst (createProduct now db product)).
Proof.
  intros [Hnd [Hle [Htn Htl]]]. unfold well_keyed. simpl.
  split; [|split; [|split]]; try assumption.
  - rewrite map_app. simpl. apply NoDup_snoc_fresh; [assumption|].
    apply Forall_forall. intros i Hi. apply in_map_iff in Hi.
    destruct Hi as [p [<- Hp]]. rewrite Forall_forall in Hle. now apply Hle.
  - apply Forall_app. split.
    + eapply Forall_impl; [|exact Hle]. simpl. intros p Hp. lia.
    + repeat constructor. simpl. lia.
Qed.

Lemma well_keyed_with_Products db ps :
  map Product.Id ps = map Product.Id (Products db) ->
  well_keyed db -> well_keyed (with_Products db ps).
Proof.
  intros Hmap [Hnd [Hle [Htn Htl]]]. unfold well_keyed. simpl.
  split; [|split; [|split]]; try assumption.
  - now rewrite Hmap.
  - eapply Forall_Id_le_map; eassumption.
Qed.

Lemma well_keyed_createTransaction now db request :
  well_keyed db -> well_keyed (fst (createTransaction now db request)).
Proof.
  intros [Hnd [Hle [Htn Htl]]]. unfold well_keyed. simpl.
  split; [|split; [|split]].
  - now rewrite map_Id_sell_all.
  - eapply Forall_Id_le_map; [apply map_Id_sell_all | exact Hle].
  - rewrite map_app. simpl. apply NoDup_snoc_fresh; [assumption|].
    apply Forall_forall. intros i Hi. apply in_map_iff in Hi.
    destruct Hi as [t [<- Ht]]. rewrite Forall_forall in Htl. now apply Htl.
  - apply Forall_app. split.
    + eapply Forall_impl; [|exact Htl]. simpl. intros t Ht. lia.
    + repeat constructor. simpl. lia.
Qed.

Lemma track_items_keys tid : forall items key,
  Forall (fun i => key < TransactionItem.Id i <= key + Z.of_nat (List.length items) /\
                   TransactionItem.TransactionId i = tid)
         (track_items tid key items) /\
  NoDup (map TransactionItem.Id (track_items tid key items)).
Proof.
  induction items as [|item items IH]; intros key.
  - split; constructor.
  - destruct (IH (key + 1)) as [Hall Hnd]. cbn [track_items].
    rewrite length_cons, Nat2Z.inj_succ. split.
    + constructor; [cbn [TransactionItem.Id TransactionItem.TransactionId]; lia|].
      eapply Forall_impl; [|exact Hall]. cbv beta. intros i Hi. lia.
    + cbn [map TransactionItem.Id]. constructor; [|exact Hnd].
      intros Hin. apply in_map_iff in Hin. destruct Hin as [i [Hid Hi]].
      rewrite Forall_forall in Hall. specialize (Hall i Hi). lia.
Qed.

Lemma length_track_items tid : forall items key,
  List.length (track_items tid key items) = List.length items.
Proof.
  induction items as [|item items IH]; intros key; simpl; [reflexivity|].
  now rewrite IH.
Qed.

Lemma rows_keyed_catalog (db db' : AppDbContext) :
  Transactions db' = Transactions db ->
  TransactionItemKey db' = TransactionItemKey db ->
  well_keyed db' -> rows_keyed db -> rows_keyed db'.
Proof.
  intros Ht Hk Hw [_ [Hnd [Hle Hown]]]. unfold rows_keyed, all_items in *.
  rewrite Ht, Hk. split; [exact Hw|]. split; [exact Hnd|]. split; assumption.
Qed.

Lemma rows_keyed_createTransaction now db request :
  rows_keyed db -> rows_keyed (fst (createTransaction now db request)).
Proof.
  intros [Hw [Hnd [Hle Hown]]]. split; [now apply well_keyed_createTransaction|].
  destruct (track_items_keys (TransactionKey db + 1) (Transaction.Items request)
              (TransactionItemKey db)) as [Hnew Hnewnd].
  unfold all_items in *. cbn [fst createTransaction Transactions TransactionItemKey].
  rewrite flat_map_app. cbn [flat_map Transaction.Items]. rewrite app_nil_r.
  rewrite length_track_items.
  rewrite Forall_forall in Hle, Hnew.
  split; [|split].
  - rewrite map_app. apply NoDup_app; [assumption | assumption |].
    intros k Hold Hk. apply in_map_iff in Hold, Hk.
    destruct Hold as [i [<- Hi]], Hk as [i' [Heq Hi']].
    specialize (Hle i Hi). specialize (Hnew i' Hi'). lia.
  - apply Forall_forall. intros i Hi. apply in_app_or in Hi. destruct Hi as [Hi|Hi].
    + specialize (Hle i Hi). lia.
    + specialize (Hnew i Hi). lia.
  - apply Forall_app. split; [exact Hown|]. repeat constructor.
    cbn [Transaction.Items Transaction.Id]. apply Forall_forall. intros i Hi.
    now apply Hnew.
Qed.

(** X1: every writing endpoint keeps the keys of the three tables sound:
    after POST, PUT or DELETE on products and after POST on transactions, no
    two products, no two transactions and no two transaction items share an
    id, no id lies beyond the last key issued for its table, and every item
    points to the transaction that holds it. *)
Theorem endpoints_keep_keys (now : DateTime) (db : AppDbContext) (id : Z)
    (product : Product.t) (request : Transaction.t) :
  rows_keyed db ->
  rows_keyed (fst (createProduct now db product)) /\
  rows_keyed (fst (updateProduct now db id product)) /\
  rows_keyed (fst (deleteProduct now db id)) /\
  rows_keyed (fst (createTransaction now db request)).
Proof.
  intros H. pose proof (proj1 H) as Hw. split; [|split; [|split]].
  - apply (rows_keyed_catalog db); [reflexivity | reflexivity | | exact H].
    now apply well_keyed_createProduct.
  - unfold updateProduct. destruct (FindAsync (Products db) id); [|exact H].
    apply (rows_keyed_catalog db); [reflexivity | reflexivity | | exact H].
    cbn [fst]. apply well_keyed_with_Products; [|exact Hw].
    apply map_Id_save. auto with pos.
  - unfold deleteProduct. destruct (FindAsync (Products db) id); [|exact H].
    apply (rows_keyed_catalog db); [reflexivity | reflexivity | | exact H].
    cbn [fst]. apply well_keyed_with_Products; [|exact Hw].
    apply map_Id_save. auto with pos.
  - now apply rows_keyed_createTransaction.
Qed.

Lemma well_keyed_shop : well_keyed shop.
Proof.
  unfold well_keyed. simpl. split; [|split; [|split]].
  - repeat constructor; simpl; intuition discriminate.
  - repeat constructor; simpl; lia.
  - constructor.
  - constructor.
Qed.

Lemma rows_keyed_one_sale : rows_keyed one_sale.
Proof.
  unfold rows_keyed, well_keyed, all_items. simpl. repeat split.
  - repeat constructor; simpl; intuition discriminate.
  - repeat constructor; simpl; lia.
  - repeat constructor; simpl; intuition.
  - repeat constructor; simpl; lia.
  - repeat constructor; simpl; intuition.
  - repeat constructor; simpl; lia.
  - repeat constructor.
Qed.

Lemma endpoints_keep_keys_witness :
  rows_keyed (fst (createProduct 200 one_sale (bind_Product 200 five_in_stock))) /\
  rows_keyed (fst (updateProduct 200 one_sale 1 (bind_Product 200 five_in_stock))) /\
  rows_keyed (fst (deleteProduct 200 one_sale 1)) /\
  rows_keyed (fst (createTransaction 200 one_sale gadgets_then_widget)).
Proof.
  exact (endpoints_keep_keys 200 one_sale 1 (bind_Product 200 five_in_stock)
           gadgets_then_widget rows_keyed_one_sale).
Defined.

(** ** Insert and look up *)

Lemma find_snoc {A : Type} (f : A -> bool) (l : list A) (x : A) :
  find f (l ++ [x]) =
  match find f l with
  | Some y => Some y
  | None => if f x then Some x else None
  end.
Proof.
  induction l as [|y l IH]; simpl; [reflexivity|].
  destruct (f y); [reflexivity | exact IH].
Qed.

Lemma find_beyond_key {A : Type} (key : A -> Z) (l : list A) (k id : Z) :
  Forall (fun x => key x <= k) l -> k < id -> find (fun x => key x =? id) l = None.
Proof.
  intros Hle Hlt. induction l as [|x l IH]; simpl; [reflexivity|].
  inversion Hle as [|? ? Hx Hl]; subst.
  replace (key x =? id) with false by (symmetry; apply Z.eqb_neq; lia).
  now apply IH.
Qed.

(** X2: in a store with sound keys, the product that POST /api/products
    answers can be fetched by its id right away, the id was not in use
    before, every other id is answered as before, and the active-products
    list gains exactly this product when it is active. *)
Theorem createProduct_then_getProduct (now : DateTime) (db : AppDbContext)
    (product : Product.t) :
  well_keyed db ->
  let db' := fst (createProduct now db product) in
  exists p',
    snd (createProduct now db product)
    = Created ("/api/products/" ++ ToString (Product.Id p')) p' /\
    getProduct db (Product.Id p') = NotFound /\
    getProduct db' (Product.Id p') = Ok p' /\
    (forall id, id <> Product.Id p' -> getProduct db' id = getProduct db id) /\
    listProducts db'
    = (listProducts db ++ (if Product.IsActive product then [p'] else []))%list.
Proof.
  intros [_ [Hle _]] db'. subst db'. unfold createProduct. cbv zeta.
  match goal with
  | |- exists p', snd (_, Created _ ?x) = _ /\ _ => exists x
  end.
  cbn [fst snd Product.Id Products].
  assert (Hnone : FindAsync (Products db) (ProductKey db + 1) = None).
  { unfold FindAsync. apply (find_beyond_key Product.Id _ (ProductKey db)); [assumption | lia]. }
  split; [reflexivity|]. split; [|split; [|split]].
  - unfold getProduct. now rewrite Hnone.
  - unfold getProduct, FindAsync. cbn [Products]. rewrite find_snoc.
    fold (FindAsync (Products db) (ProductKey db + 1)). rewrite Hnone.
    cbn [Product.Id]. now rewrite Z.eqb_refl.
  - intros id Hid. unfold getProduct, FindAsync. cbn [Products]. rewrite find_snoc.
    destruct (find (fun p => Product.Id p =? id) (Products db)); [reflexivity|].
    cbn [Product.Id].
    replace (ProductKey db + 1 =? id) with false
      by (symmetry; apply Z.eqb_neq; congruence).
    reflexivity.
  - unfold listProducts. cbn [Products]. rewrite filter_app. simpl.
    now destruct (Product.IsActive product).
Qed.

Lemma createProduct_then_getProduct_witness :
  exists p',
    getProduct shop (Product.Id p') = NotFound /\
    getProduct (fst (createProduct 200 shop (bind_Product 200 five_in_stock)))
               (Product.Id p') = Ok p' /\
    Product.Stock p' = 5.
Proof.
  destruct (createProduct_then_getProduct 200 shop (bind_Product 200 five_in_stock)
              well_keyed_shop) as [p' [Hres [Hnew [Hget _]]]].
  exists p'. split; [exact Hnew|]. split; [exact Hget|].
  injection Hres as _ <-. reflexivity.
Defined.

Lemma getTransaction_found db id t :
  find (fun t => Transaction.Id t =? id) (Transactions db) = Some t ->
  getTransaction db id = Ok t.
Proof. intros H. unfold getTransaction. now rewrite H. Qed.

(** X3: in a store with sound keys, the transaction that POST
    /api/transactions answers can be fetched by its id right away, with the
    lines of the request; the id was not in use before, and every other id
    is answered as before. *)
Theorem createTransaction_then_getTransaction (now : DateTime) (db : AppDbContext)
    (request : Transaction.t) :
  well_keyed db ->
  let db' := fst (createTransaction now db request) in
  exists t,
    snd (createTransaction now db request)
    = Created ("/api/transactions/" ++ ToString (Transaction.Id t)) t /\
    getTransaction db (Transaction.Id t) = NotFound /\
    getTransaction db' (Transaction.Id t) = Ok t /\
    map line (Transaction.Items t) = map line (Transaction.Items request) /\
    (forall id, id <> Transaction.Id t -> getTransaction db' id = getTransaction db id).
Proof.
  intros [_ [_ [_ Hle]]] db'. subst db'. unfold createTransaction. cbv zeta.
  match goal with
  | |- exists t, snd (_, Created _ ?x) = _ /\ _ => exists x
  end.
  cbn [fst snd Transaction.Id Transactions Transaction.Items].
  assert (Hnone : find (fun t => Transaction.Id t =? TransactionKey db + 1)
                       (Transactions db) = None).
  { apply (find_beyond_key Transaction.Id _ (TransactionKey db)); [assumption | lia]. }
  split; [reflexivity|]. split; [|split; [|split]].
  - unfold getTransaction. now rewrite Hnone.
  - unfold getTransaction. cbn [Transactions]. rewrite find_snoc, Hnone.
    cbn [Transaction.Id]. now rewrite Z.eqb_refl.
  - apply line_track_items.
  - intros id Hid. unfold getTransaction. cbn [Transactions]. rewrite find_snoc.
    destruct (find (fun t => Transaction.Id t =? id) (Transactions db)); [reflexivity|].
    cbn [Transaction.Id].
    replace (TransactionKey db + 1 =? id) with false
      by (symmetry; apply Z.eqb_neq; congruence).
    reflexivity.
Qed.

Lemma createTransaction_then_getTransaction_witness :
  exists t,
    getTransaction (fst (createTransaction 200 shop two_widgets)) (Transaction.Id t)
    = Ok t /\
    map line (Transaction.Items t) = map line (Transaction.Items two_widgets).
Proof.
  destruct (createTransaction_then_getTransaction 200 shop two_widgets well_keyed_shop)
    as [t [_ [_ [Hget [Hlines _]]]]].
  exists t. split; assumption.
Defined.

(** ** Catalog: what update and delete leave alone *)

Lemma save_absent id f ps : FindAsync ps id = None -> save id f ps = ps.
Proof.
  intros E. rewrite FindAsync_None in E. unfold save.
  rewrite <- (map_id ps) at 2. apply map_ext_in. intros p Hin.
  specialize (E p Hin). apply Z.eqb_neq in E. now rewrite E.
Qed.

Lemma deleteProduct_products now db id :
  Products (fst (deleteProduct now db id)) = save id (deactivated now) (Products db).
Proof.
  unfold deleteProduct. destruct (FindAsync (Products db) id) eqn:E; simpl.
  - reflexivity.
  - now rewrite save_absent.
Qed.

Lemma updateProduct_products now db id update :
  Products (fst (updateProduct now db id update))
  = save id (merge now update) (Products db).
Proof.
  unfold updateProduct. destruct (FindAsync (Products db) id) eqn:E; simpl.
  - reflexivity.
  - now rewrite save_absent.
Qed.

Lemma filter_active_deactivated now id ps :
  filter Product.IsActive (save id (deactivated now) ps)
  = filter (fun p => negb (Product.Id p =? id)) (filter Product.IsActive ps).
Proof.
  unfold save. induction ps as [|p ps IH]; simpl; [reflexivity|].
  destruct (Product.Id p =? id) eqn:E; simpl.
  - rewrite IH. destruct (Product.IsActive p); simpl; [now rewrite E | reflexivity].
  - rewrite IH. destruct (Product.IsActive p); simpl; [now rewrite E | reflexivity].
Qed.

(** X4: DELETE /api/products/{id} removes no row: the ids of the stored
    products are the same, in the same order; the transactions are
    untouched; every other id is answered as before; and the
    active-products list is the former one without the products of that
    id. *)
Theorem deleteProduct_is_soft (now : DateTime) (db : AppDbContext) (id : Z) :
  let db' := fst (deleteProduct now db id) in
  map Product.Id (Products db') = map Product.Id (Products db) /\
  Transactions db' = Transactions db /\
  (forall id', id' <> id -> getProduct db' id' = getProduct db id') /\
  listProducts db'
  = filter (fun p => negb (Product.Id p =? id)) (listProducts db).
Proof.
  intros db'. subst db'. split; [|split; [|split]].
  - rewrite deleteProduct_products. apply map_Id_save. auto with pos.
  - unfold deleteProduct. now destruct (FindAsync (Products db) id).
  - intros id' Hne. unfold getProduct.
    rewrite deleteProduct_products, FindAsync_save_other by auto with pos.
    reflexivity.
  - unfold listProducts. rewrite deleteProduct_products.
    apply filter_active_deactivated.
Qed.





(** X6: PUT /api/products/{id} changes one row at most: the ids of the
    stored products and the transactions are the same, every other id is
    answered as before, and the updated product keeps its id and creation
    time. *)
Theorem updateProduct_frame (now : DateTime) (db : AppDbContext) (id : Z)
    (update : Product.t) :
  let db' := fst (updateProduct now db id update) in
  map Product.Id (Products db') = map Product.Id (Products db) /\
  Transactions db' = Transactions db /\
  (forall id', id' <> id -> getProduct db' id' = getProduct db id') /\
  (forall p, FindAsync (Products db) id = Some p ->
     exists p', getProduct db' id = Ok p' /\
                Product.Id p' = Product.Id p /\
                Product.CreatedAt p' = Product.CreatedAt p /\
                Product.UpdatedAt p' = now).
Proof.
  intros db'. subst db'. split; [|split; [|split]].
  - rewrite updateProduct_products. apply map_Id_save. auto with pos.
  - unfold updateProduct. now destruct (FindAsync (Products db) id).
  - intros id' Hne. unfold getProduct.
    rewrite updateProduct_products, FindAsync_save_other by auto with pos.
    reflexivity.
  - intros p Hp. exists (merge now update p). split; [|repeat split].
    apply getProduct_found.
    rewrite updateProduct_products, FindAsync_save_same by auto with pos.
    now rewrite Hp.
Qed.

Lemma updateProduct_frame_witness :
  exists p',
    getProduct (fst (updateProduct 200 shop 1 (bind_Product 200 widget_update))) 1
    = Ok p' /\
    Product.Id p' = Product.Id widget /\
    Product.CreatedAt p' = Product.CreatedAt widget /\
    Product.UpdatedAt p' = 200.
Proof.
  exact (proj2 (proj2 (proj2
           (updateProduct_frame 200 shop 1 (bind_Product 200 widget_update))))
           widget eq_refl).
Defined.

(** X7: PUT /api/products/{id} cannot bring a price or a stock to zero, nor
    a name, description or category to null: a zero price or stock in the
    update leaves the stored value, and a stored value that is not zero (not
    null) is not zero (not null) afterwards. *)
Theorem updateProduct_never_zeroes (now : DateTime) (db : AppDbContext) (id : Z)
    (update p p' : Product.t) :
  FindAsync (Products db) id = Some p ->
  snd (updateProduct now db id update) = Ok p' ->
  (Product.Stock update = 0 -> Product.Stock p' = Product.Stock p) /\
  (PrimFloat.eqb (Product.Price update) 0 = true -> Product.Price p' = Product.Price p) /\
  (Product.Stock p <> 0 -> Product.Stock p' <> 0) /\
  (PrimFloat.eqb (Product.Price p) 0 = false ->
   PrimFloat.eqb (Product.Price p') 0 = false) /\
  (Product.Name p <> None -> Product.Name p' <> None) /\
  (Product.Description p <> None -> Product.Description p' <> None) /\
  (Product.Category p <> None -> Product.Category p' <> None).
Proof.
  intros Hp Hres. rewrite (updateProduct_found now db id update p Hp) in Hres.
  simpl in Hres. injection Hres as <-. simpl.
  split; [|split; [|split; [|split; [|split; [|split]]]]].
  - intros ->. reflexivity.
  - intros ->. reflexivity.
  - intros Hs. destruct (Product.Stock update =? 0) eqn:E; simpl; [assumption|].
    now apply Z.eqb_neq.
  - intros Hs. destruct (PrimFloat.eqb (Product.Price update) 0) eqn:E; simpl;
      assumption.
  - intros H. destruct (Product.Name update); simpl; [discriminate | assumption].
  - intros H. destruct (Product.Description update); simpl; [discriminate | assumption].
  - intros H. destruct (Product.Category update); simpl; [discriminate | assumption].
Qed.

Lemma updateProduct_never_zeroes_witness :
  exists p',
    snd (updateProduct 200 shop 1 (bind_Product 200 zero_update)) = Ok p' /\
    Product.Stock p' = 5 /\ Product.Price p' = nine_99.
Proof.
  eexists. split; [reflexivity|].
  destruct (updateProduct_never_zeroes 200 shop 1 (bind_Product 200 zero_update)
              widget _ eq_refl eq_refl) as [Hstock [Hprice _]].
  split; [exact (Hstock eq_refl) | exact (Hprice eq_refl)].
Defined.

(** ** Order processor: the catalog under sales *)


Lemma same_but_stock_refl p : same_but_stock p p.
Proof. repeat split. Qed.

Lemma same_but_stock_trans p q r :
  same_but_stock p q -> same_but_stock q r -> same_but_stock p r.
Proof.
  unfold same_but_stock. intros H1 H2.
  destruct H1 as [? [? [? [? [? [? [? ?]]]]]]], H2 as [? [? [? [? [? [? [? ?]]]]]]].
  repeat split; congruence.
Qed.

Lemma Forall2_same_but_stock_sell now item ps :
  Forall2 same_but_stock ps (sell now ps item).
Proof.
  rewrite sell_is_save. unfold save.
  induction ps as [|p ps IH]; simpl; constructor; [|exact IH].
  destruct (Product.Id p =? TransactionItem.ProductId item);
    [repeat split | apply same_but_stock_refl].
Qed.

Lemma Forall2_trans_same ps qs rs :
  Forall2 same_but_stock ps qs -> Forall2 same_but_stock qs rs ->
  Forall2 same_but_stock ps rs.
Proof.
  intros H. revert rs. induction H as [|p q ps qs Hpq _ IH]; intros rs H2.
  - inversion H2. constructor.
  - inversion H2 as [|? r ? rs' Hqr Hrest]; subst. constructor.
    + eapply same_but_stock_trans; eassumption.
    + now apply IH.
Qed.

Lemma Forall2_same_but_stock_sell_all now items : forall ps,
  Forall2 same_but_stock ps (fold_left (sell now) items ps).
Proof.
  induction items as [|item items IH]; intros ps; simpl.
  - induction ps; constructor; [apply same_but_stock_refl | assumption].
  - eapply Forall2_trans_same; [apply Forall2_same_but_stock_sell | apply IH].
Qed.

(** X8: POST /api/transactions touches nothing of the catalog but stock and
    update time: the stored products are, row by row, the former ones with
    the same id, name, description, price, category, image, active flag and
    creation time; no product key is issued; and the transactions stored
    before are still there, unchanged and at the same places. *)
Theorem createTransaction_frame (now : DateTime) (db : AppDbContext)
    (request : Transaction.t) :
  let db' := fst (createTransaction now db request) in
  Forall2 same_but_stock (Products db) (Products db') /\
  ProductKey db' = ProductKey db /\
  (forall i t, nth_error (Transactions db) i = Some t ->
               nth_error (Transactions db') i = Some t).
Proof.
  intros db'. subst db'. split; [|split].
  - rewrite createTransaction_products. apply Forall2_same_but_stock_sell_all.
  - reflexivity.
  - intros i t Hi. simpl. rewrite nth_error_app1; [assumption|].
    apply nth_error_Some. congruence.
Qed.

Lemma sold_commute now q1 q2 p :
  sold now q1 (sold now q2 p) = sold now q2 (sold now q1 p).
Proof.
  unfold sold. simpl. f_equal.
  unfold int_sub at 2 4. rewrite !int_sub_wrap32. f_equal. ring.
Qed.

Lemma sell_commute now ps i j :
  sell now (sell now ps i) j = sell now (sell now ps j) i.
Proof.
  rewrite !sell_is_save. unfold save. rewrite !map_map. apply map_ext. intros p.
  destruct (Product.Id p =? TransactionItem.ProductId i) eqn:Ei;
    destruct (Product.Id p =? TransactionItem.ProductId j) eqn:Ej;
    cbn [sold Product.Id]; rewrite ?Ei, ?Ej; try reflexivity.
  apply sold_commute.
Qed.

Lemma sell_all_Permutation now items1 items2 :
  Permutation items1 items2 ->
  forall ps, fold_left (sell now) items1 ps = fold_left (sell now) items2 ps.
Proof.
  induction 1 as [|x l l' _ IH|x y l|l l' l'' _ IH1 _ IH2]; intros ps; simpl.
  - reflexivity.
  - apply IH.
  - now rewrite sell_commute.
  - now rewrite IH1.
Qed.

(** X9: the effect of sales on the catalog depends only on the lines sold:
    two sales made at the same time leave the products as one sale with the
    lines of both would, and the order of the lines within a sale does not
    matter. *)
Theorem sales_compose (now : DateTime) (db : AppDbContext)
    (first second both : Transaction.t) :
  Permutation (Transaction.Items both)
              (Transaction.Items first ++ Transaction.Items second) ->
  Products (fst (createTransaction now (fst (createTransaction now db first)) second))
  = Products (fst (createTransaction now db both)).
Proof.
  intros Hperm. rewrite !createTransaction_products.
  rewrite (sell_all_Permutation now _ _ Hperm). now rewrite fold_left_app.
Qed.

Lemma sales_compose_witness :
  Products (fst (createTransaction 200 (fst (createTransaction 200 shop two_widgets))
                   four_gadgets))
  = Products (fst (createTransaction 200 shop gadgets_and_widgets)) /\
  map Product.Stock (Products (fst (createTransaction 200 shop gadgets_and_widgets)))
  = [3; -1].
Proof.
  split; [|reflexivity].
  apply (sales_compose 200 shop two_widgets four_gadgets gadgets_and_widgets).
  simpl. apply perm_swap.
Defined.

(** X10: a sale is never held back by the product: a product named by a
    line is sold, in [int] arithmetic, whether or not it is active and
    whether or not its stock suffices, and the request is answered Created;
    when the lines ask for more than is in stock, and the difference is an
    [int], the stock is negative afterwards. *)
Theorem createTransaction_oversells (now : DateTime) (db : AppDbContext)
    (request : Transaction.t) (id : Z) (p : Product.t) :
  FindAsync (Products db) id = Some p ->
  lines_of id (Transaction.Items request) <> [] ->
  is_Created (snd (createTransaction now db request)) = true /\
  exists p',
    getProduct (fst (createTransaction now db request)) id = Ok p' /\
    Product.Stock p'
    = int_sub (Product.Stock p) (quantity_for id (Transaction.Items request)) /\
    Product.IsActive p' = Product.IsActive p /\
    (Product.Stock p < quantity_for id (Transaction.Items request) ->
     int_range (Product.Stock p - quantity_for id (Transaction.Items request)) ->
     Product.Stock p' = Product.Stock p - quantity_for id (Transaction.Items request) /\
     Product.Stock p' < 0).
Proof.
  intros Hp Href. split; [reflexivity|].
  exists (sell_result now id (Transaction.Items request) p).
  destruct (sell_result_referenced now id (Transaction.Items request) p Href)
    as [Hstock _].
  split; [|split; [|split]].
  - apply getProduct_found.
    rewrite createTransaction_products, FindAsync_sell_all. now rewrite Hp.
  - exact Hstock.
  - apply sell_result_same.
  - intros Hmore Hrange. rewrite Hstock, wrap32_small by assumption.
    split; [reflexivity | lia].
Qed.

Lemma createTransaction_oversells_witness :
  exists p',
    getProduct (fst (createTransaction 200 shop four_gadgets)) 2 = Ok p' /\
    Product.IsActive p' = false /\
    Product.Stock p' = 3 - 4 /\
    Product.Stock p' < 0.
Proof.
  destruct (proj2 (createTransaction_oversells 200 shop four_gadgets 2 gadget
                     eq_refl ltac:(discriminate)))
    as [p' [Hget [_ [Hact Hneg]]]].
  exists p'. split; [exact Hget|]. split; [exact Hact|].
  apply Hneg.
  - vm_compute. reflexivity.
  - unfold int_range. vm_compute. split; [discriminate | reflexivity].
Defined.

(** ** Transaction numbers are unique *)



(** ** Listing transactions *)

Lemma insert_desc_Permutation t : forall l, Permutation (t :: l) (insert_desc t l).
Proof.
  induction l as [|u l IH]; simpl; [apply Permutation_refl|].
  destruct (Transaction.CreatedAt u <=? Transaction.CreatedAt t).
  - apply Permutation_refl.
  - eapply Permutation_trans; [apply perm_swap|]. now apply perm_skip.
Qed.

Lemma insert_desc_sorted t : forall l, newest_first l -> newest_first (insert_desc t l).
Proof.
  unfold newest_first. induction l as [|u l IH]; intros Hs; simpl.
  - repeat constructor.
  - inversion Hs as [|? ? Hl Hu]; subst.
    destruct (Transaction.CreatedAt u <=? Transaction.CreatedAt t) eqn:E.
    + apply Z.leb_le in E. constructor; [assumption|].
      constructor; [assumption|].
      rewrite Forall_forall in *. intros x Hx. specialize (Hu x Hx). lia.
    + apply Z.leb_gt in E. constructor; [now apply IH|].
      rewrite Forall_forall in *. intros x Hx.
      apply (Permutation_in _ (Permutation_sym (insert_desc_Permutation t l))) in Hx.
      destruct Hx as [<-|Hx]; [lia | now apply Hu].
Qed.

Lemma insert_desc_oldest t : forall l,
  Forall (fun u => Transaction.CreatedAt t < Transaction.CreatedAt u) l ->
  insert_desc t l = (l ++ [t])%list.
Proof.
  induction l as [|u l IH]; intros H; simpl; [reflexivity|].
  inversion H as [|? ? Hu Hl]; subst.
  replace (Transaction.CreatedAt u <=? Transaction.CreatedAt t) with false
    by (symmetry; apply Z.leb_gt; assumption).
  now rewrite IH.
Qed.

(** X12: GET /api/transactions returns every stored transaction exactly once,
    newest first; when each transaction was created later than the one
    before it, the list is the stored order reversed. *)
Theorem listTransactions_newest_first (db : AppDbContext) :
  Permutation (Transactions db) (listTransactions db) /\
  newest_first (listTransactions db) /\
  (created_in_order (Transactions db) ->
   listTransactions db = rev (Transactions db)).
Proof.
  unfold listTransactions, OrderByDescending.
  induction (Transactions db) as [|t l [IHp [IHs IHr]]]; simpl.
  - split; [constructor|]. split; [constructor | reflexivity].
  - split; [|split].
    + eapply Permutation_trans; [|apply insert_desc_Permutation].
      now apply perm_skip.
    + now apply insert_desc_sorted.
    + intros Hord. inversion Hord as [|? ? Hl Ht]; subst.
      rewrite (IHr Hl). apply insert_desc_oldest.
      rewrite Forall_forall in *. intros u Hu. apply Ht. now apply in_rev.
Qed.

Lemma listTransactions_newest_first_witness :
  listTransactions two_days = rev (Transactions two_days).
Proof.
  apply (proj2 (proj2 (listTransactions_newest_first two_days))).
  unfold created_in_order. simpl.
  repeat constructor; simpl; lia.
Defined.

(** ** Categories *)

Lemma same_category_eq a b : same_category a b = true <-> a = b.
Proof.
  destruct a as [x|], b as [y|]; simpl; split; intros H;
    try discriminate; try reflexivity.
  - apply String.eqb_eq in H. now subst.
  - injection H as <-. apply String.eqb_refl.
Qed.

Lemma In_Distinct c : forall l, In c (Distinct l) <-> In c l.
Proof.
  induction l as [|v l IH]; simpl; [reflexivity|].
  rewrite filter_In, IH. split.
  - intros [H|[H _]]; [now left | now right].
  - intros [H|H]; [now left|].
    destruct (same_category v c) eqn:E.
    + left. now apply same_category_eq.
    + right. split; [assumption | reflexivity].
Qed.

Lemma NoDup_Distinct : forall l, NoDup (Distinct l).
Proof.
  induction l as [|v l IH]; simpl; constructor.
  - rewrite filter_In. intros [_ H].
    assert (E : same_category v v = true) by now apply same_category_eq.
    rewrite E in H. discriminate.
  - now apply NoDup_filter.
Qed.

(** X13: GET /api/categories lists each category once, and a category is
    listed exactly when some active product has it. *)
Theorem listCategories_distinct (db : AppDbContext) :
  exists categories,
    listCategories db = Ok categories /\
    NoDup categories /\
    forall c, In c categories <->
              exists p, In p (Products db) /\ Product.IsActive p = true /\
                        Product.Category p = c.
Proof.
  eexists. split; [reflexivity|]. split; [apply NoDup_Distinct|].
  intros c. rewrite In_Distinct, in_map_iff. split.
  - intros [p [Hc Hp]]. apply filter_In in Hp. destruct Hp as [Hin Hact].
    exists p. now repeat split.
  - intros [p [Hin [Hact Hc]]]. exists p. split; [assumption|].
    apply filter_In. now split.
Qed.

(** ** Reporting: bounds and the effect of the endpoints *)



Lemma active_count_same_but_stock ps qs :
  Forall2 same_but_stock ps qs ->
  List.length (filter Product.IsActive qs) = List.length (filter Product.IsActive ps).
Proof.
  induction 1 as [|p q ps qs Hpq _ IH]; simpl; [reflexivity|].
  destruct Hpq as [_ [_ [_ [_ [_ [_ [Hact _]]]]]]]. rewrite Hact.
  destruct (Product.IsActive p); simpl; now rewrite IH.
Qed.

Lemma Sum_snoc {A : Type} (selector : A -> float) (rows : list A) (row : A) :
  Sum selector (rows ++ [row]) = PrimFloat.add (Sum selector rows) (selector row).
Proof. unfold Sum. now rewrite fold_left_app. Qed.

(** X15: a sale shows in the statistics: after POST /api/transactions the
    number of all transactions is one more and the number of active products
    is the same; if the sale was made on or after the start of the reporting
    day, today's transactions are one more and today's revenue is the former
    revenue plus the total the request carried; if it was made before that
    day, today's figures are unchanged. *)
Theorem dashboardStats_after_sale (now later : DateTime) (db : AppDbContext)
    (request : Transaction.t) :
  let before := dashboardStats later db in
  let after := dashboardStats later (fst (createTransaction now db request)) in
  totalTransactions after = totalTransactions before + 1 /\
  totalProducts after = totalProducts before /\
  (Date later <= now ->
   todayTransactions after = todayTransactions before + 1 /\
   todayRevenue after
   = PrimFloat.add (todayRevenue before) (Transaction.Total request)) /\
  (now < Date later ->
   todayTransactions after = todayTransactions before /\
   todayRevenue after = todayRevenue before).
Proof.
  unfold dashboardStats. cbv zeta.
  cbn [totalTransactions totalProducts todayTransactions todayRevenue].
  split; [|split; [|split]].
  - simpl. rewrite length_app. simpl. lia.
  - unfold CountAsync. rewrite createTransaction_products. f_equal.
    apply active_count_same_but_stock. apply Forall2_same_but_stock_sell_all.
  - intros Hday. simpl. rewrite filter_app. simpl.
    replace (now >=? Date later) with true by (symmetry; apply Z.geb_le; lia).
    rewrite length_app, Sum_snoc. simpl. split; [lia | reflexivity].
  - intros Hday. simpl. rewrite filter_app. simpl.
    replace (now >=? Date later) with false
      by (symmetry; rewrite Z.geb_leb; apply Z.leb_gt; lia).
    now rewrite app_nil_r.
Qed.

Lemma dashboardStats_after_sale_witness :
  todayTransactions (dashboardStats 300 (fst (createTransaction 200 shop two_widgets)))
  = todayTransactions (dashboardStats 300 shop) + 1 /\
  todayRevenue (dashboardStats 300 (fst (createTransaction 200 shop two_widgets)))
  = PrimFloat.add (todayRevenue (dashboardStats 300 shop)) nineteen_98.
Proof.
  apply (proj1 (proj2 (proj2 (dashboardStats_after_sale 200 300 shop two_widgets)))).
  vm_compute. discriminate.
Defined.

Lemma NoDup_map_filter {A B : Type} (g : A -> B) (f : A -> bool) (l : list A) :
  NoDup (map g l) -> NoDup (map g (filter f l)).
Proof.
  induction l as [|x l IH]; simpl; intros H; [constructor|].
  inversion H as [|? ? Hx Hl]; subst.
  destruct (f x); simpl; [|now apply IH].
  constructor; [|now apply IH].
  intros Hin. apply Hx. apply in_map_iff in Hin. destruct Hin as [y [Hy Hyin]].
  apply in_map_iff. exists y. split; [assumption|].
  apply filter_In in Hyin. tauto.
Qed.

Lemma length_without_key (l : list Product.t) (p : Product.t) :
  NoDup (map Product.Id l) -> In p l ->
  List.length (filter (fun q => negb (Product.Id q =? Product.Id p)) l)
  = Nat.pred (List.length l).
Proof.
  induction l as [|x l IH]; simpl; intros Hnd Hin; [contradiction|].
  inversion Hnd as [|? ? Hx Hl]; subst.
  destruct Hin as [->|Hin].
  - rewrite Z.eqb_refl. simpl.
    assert (Hall : filter (fun q => negb (Product.Id q =? Product.Id p)) l = l).
    { apply forallb_filter_id. apply forallb_forall. intros q Hq.
      apply negb_true_iff, Z.eqb_neq. intros E. apply Hx. rewrite <- E.
      now apply in_map. }
    now rewrite Hall.
  - assert (Hne : Product.Id x <> Product.Id p).
    { intros E. apply Hx. rewrite E. now apply in_map. }
    apply Z.eqb_neq in Hne. rewrite Hne. simpl.
    rewrite (IH Hl Hin). destruct l; [contradiction | reflexivity].
Qed.

Lemma length_without_absent (l : list Product.t) (id : Z) :
  (forall q, In q l -> Product.Id q <> id) ->
  filter (fun q => negb (Product.Id q =? id)) l = l.
Proof.
  intros H. apply forallb_filter_id. apply forallb_forall. intros q Hq.
  apply negb_true_iff, Z.eqb_neq. now apply H.
Qed.

Lemma same_key_same_row (l : list Product.t) (p q : Product.t) :
  NoDup (map Product.Id l) -> In p l -> In q l -> Product.Id q = Product.Id p -> q = p.
Proof.
  induction l as [|x l IH]; simpl; intros Hnd Hp Hq E; [contradiction|].
  inversion Hnd as [|? ? Hx Hl]; subst.
  destruct Hp as [->|Hp], Hq as [->|Hq].
  - reflexivity.
  - exfalso. apply Hx. rewrite <- E. now apply in_map.
  - exfalso. apply Hx. rewrite E. now apply in_map.
  - now apply IH.
Qed.

Lemma filter_deactivated (pred : Product.t -> bool) now id ps :
  (forall p, pred (deactivated now p) = false) ->
  filter pred (save id (deactivated now) ps)
  = filter (fun p => negb (Product.Id p =? id)) (filter pred ps).
Proof.
  intros Hpred. unfold save. induction ps as [|p ps IH]; simpl; [reflexivity|].
  destruct (Product.Id p =? id) eqn:E; simpl.
  - rewrite Hpred, IH. destruct (pred p); simpl; [now rewrite E | reflexivity].
  - rewrite IH. destruct (pred p); simpl; [now rewrite E | reflexivity].
Qed.

Lemma count_without_key (pred : Product.t -> bool) (l : list Product.t) (p : Product.t) :
  NoDup (map Product.Id l) -> In p l ->
  Z.of_nat (List.length
              (filter (fun q => negb (Product.Id q =? Product.Id p)) (filter pred l)))
  = Z.of_nat (List.length (filter pred l)) - (if pred p then 1 else 0).
Proof.
  intros Hnd Hin. destruct (pred p) eqn:E.
  - assert (Hp : In p (filter pred l)) by (apply filter_In; now split).
    rewrite length_without_key; [|now apply NoDup_map_filter | assumption].
    destruct (filter pred l); [contradiction | simpl List.length; lia].
  - rewrite length_without_absent; [lia|].
    intros q Hq Hid. apply filter_In in Hq. destruct Hq as [Hq Hpq].
    assert (q = p) by (eapply same_key_same_row; eassumption).
    subst q. congruence.
Qed.

(** X16: in a store with sound keys, DELETE /api/products/{id} lowers the
    number of active products by one when the product was active, and the
    low-stock count by one when it was active with stock below 10; deleting
    an inactive product changes neither, and the transaction counters never
    change. *)
Theorem dashboardStats_after_delete (now later : DateTime) (db : AppDbContext)
    (id : Z) (p : Product.t) :
  well_keyed db ->
  FindAsync (Products db) id = Some p ->
  let before := dashboardStats later db in
  let after := dashboardStats later (fst (deleteProduct now db id)) in
  totalProducts after
  = totalProducts before - (if Product.IsActive p then 1 else 0) /\
  lowStockCount after
  = lowStockCount before
    - (if (Product.Stock p <? 10) && Product.IsActive p then 1 else 0) /\
  totalTransactions after = totalTransactions before /\
  todayTransactions after = todayTransactions before /\
  todayRevenue after = todayRevenue before.
Proof.
  intros [Hnd _] Hp. cbv zeta.
  assert (Htx : Transactions (fst (deleteProduct now db id)) = Transactions db).
  { unfold deleteProduct. now rewrite Hp. }
  apply FindAsync_Some in Hp. destruct Hp as [Hin Hid]. subst id.
  unfold dashboardStats. cbv zeta.
  cbn [totalTransactions totalProducts todayTransactions todayRevenue lowStockCount].
  rewrite Htx, deleteProduct_products. unfold CountAsync.
  split; [|split; [|repeat split]].
  - rewrite filter_deactivated by reflexivity.
    now apply (count_without_key Product.IsActive).
  - rewrite filter_deactivated by (intros q; apply andb_false_r).
    now apply (count_without_key
                 (fun q => (Product.Stock q <? 10) && Product.IsActive q)).
Qed.

Lemma dashboardStats_after_delete_witness :
  totalProducts (dashboardStats 300 (fst (deleteProduct 200 shop 1)))
  = totalProducts (dashboardStats 300 shop) - 1 /\
  lowStockCount (dashboardStats 300 (fst (deleteProduct 200 shop 1)))
  = lowStockCount (dashboardStats 300 shop) - 1.
Proof.
  destruct (dashboardStats_after_delete 200 300 shop 1 widget well_keyed_shop eq_refl)
    as [Htotal [Hlow _]].
  split; [exact Htotal | exact Hlow].
Defined.

(** X17: POST /api/products shows in the statistics by the product's own
    fields: the number of active products grows by one exactly when the
    product is active, the low-stock count by one exactly when it is active
    with stock below 10, and the transaction counters do not change. *)
Theorem dashboardStats_after_create (now later : DateTime) (db : AppDbContext)
    (product : Product.t) :
  let before := dashboardStats later db in
  let after := dashboardStats later (fst (createProduct now db product)) in
  totalProducts after
  = totalProducts before + (if Product.IsActive product then 1 else 0) /\
  lowStockCount after
  = lowStockCount before
    + (if (Product.Stock product <? 10) && Product.IsActive product then 1 else 0) /\
  totalTransactions after = totalTransactions before /\
  todayTransactions after = todayTransactions before /\
  todayRevenue after = todayRevenue before.
Proof.
  unfold dashboardStats, CountAsync. cbv zeta. simpl.
  rewrite !filter_app, !length_app. simpl.
  split; [|split; [|repeat split]].
  - destruct (Product.IsActive product); simpl; lia.
  - destruct ((Product.Stock product <? 10) && Product.IsActive product); simpl; lia.
Qed.

(** * Properties of the client screens *)

(** ** Numbers *)

Lemma SFcompare_refl x : x <> S754_nan -> SFcompare x x = Some Eq.
Proof.
  destruct x as [s|s| |s m e]; intros H; simpl.
  - reflexivity.
  - now destruct s.
  - contradiction.
  - rewrite Z.compare_refl, Pos.compare_cont_refl. now destruct s.
Qed.

Lemma leb_refl (x : float) : Client.isNaN x = false -> PrimFloat.leb x x = true.
Proof.
  unfold Client.isNaN. rewrite negb_false_iff, eqb_spec, leb_spec.
  unfold SFeqb, SFleb. destruct (SFcompare (Prim2SF x) (Prim2SF x)) as [[]|];
    congruence.
Qed.

(** [Math.min] never exceeds its second argument. *)
Lemma Math_min_le (a b : float) :
  Client.isNaN a = false -> Client.isNaN b = false ->
  PrimFloat.leb (Client.POSScreen.Math_min a b) b = true.
Proof.
  intros Ha Hb. unfold Client.POSScreen.Math_min. rewrite Ha, Hb. simpl.
  destruct (PrimFloat.ltb a b) eqn:Eab.
  - rewrite ltb_spec in Eab. rewrite leb_spec. unfold SFltb in Eab. unfold SFleb.
    destruct (SFcompare (Prim2SF a) (Prim2SF b)) as [[]|]; congruence.
  - destruct (PrimFloat.ltb b a) eqn:Eba; [now apply leb_refl|].
    destruct (PrimFloat.classify a) eqn:Ec; try now apply leb_refl.
    rewrite classify_spec in Ec. rewrite ltb_spec in Eab, Eba. rewrite leb_spec.
    unfold Client.isNaN in Hb. rewrite negb_false_iff, eqb_spec in Hb.
    unfold SFltb in Eab, Eba. unfold SFleb. unfold SFeqb in Hb.
    unfold SF64classify, SFclassify in Ec.
    destruct (Prim2SF a) as [sa|sa| |sa ma ea]; try destruct sa; try discriminate;
      try (destruct (Z.pos (digits2_pos ma) =? prec); discriminate).
    destruct (Prim2SF b) as [sb|sb| |sb mb eb]; try destruct sb; simpl in *;
      congruence.
Qed.

(** ** The POS cart *)

Lemma find_id_None (pid : string) (cart : list Client.POSScreen.CartItem) :
  find (fun item => (Client.POSScreen.id (Client.POSScreen.product item) =? pid)%string)
       cart = None
  <-> ~ In pid (cart_ids cart).
Proof.
  unfold cart_ids. induction cart as [|item cart IH]; simpl.
  - split; [intros _ [] | reflexivity].
  - destruct (Client.POSScreen.id (Client.POSScreen.product item) =? pid)%string eqn:E.
    + apply String.eqb_eq in E. split; [discriminate | intros H; exfalso; apply H; now left].
    + apply String.eqb_neq in E. rewrite IH. tauto.
Qed.

Lemma cart_ids_map_quantity (pid : string) (g : Client.POSScreen.CartItem -> float)
    (cart : list Client.POSScreen.CartItem) :
  cart_ids
    (map (fun item =>
            if (Client.POSScreen.id (Client.POSScreen.product item) =? pid)%string
            then {| Client.POSScreen.product := Client.POSScreen.product item;
                    Client.POSScreen.quantity := g item |}
            else item) cart)
  = cart_ids cart.
Proof.
  unfold cart_ids. rewrite map_map. apply map_ext. intros item.
  now destruct (Client.POSScreen.id (Client.POSScreen.product item) =? pid)%string.
Qed.

(** X18: [addToCart] keeps one cart line per product: a product already in
    the cart leaves the ids of the cart as they are (its line gains one unit,
    or the cart is unchanged at the stock limit), a new product is appended
    with quantity 1; so a cart without repeated ids stays so, holds the
    product afterwards, and is never empty. *)
Theorem addToCart_one_line_per_product (product : Client.POSScreen.Product)
    (cart : list Client.POSScreen.CartItem) :
  let cart' := Client.POSScreen.addToCart product cart in
  (In (Client.POSScreen.id product) (cart_ids cart) -> cart_ids cart' = cart_ids cart) /\
  (~ In (Client.POSScreen.id product) (cart_ids cart) ->
   cart' = (cart ++ [ {| Client.POSScreen.product := product;
                         Client.POSScreen.quantity := 1%float |} ])%list) /\
  (NoDup (cart_ids cart) -> NoDup (cart_ids cart')) /\
  In (Client.POSScreen.id product) (cart_ids cart') /\
  cart' <> [].
Proof.
  intros cart'. subst cart'. unfold Client.POSScreen.addToCart.
  destruct (find _ cart) as [existingItem|] eqn:E.
  - assert (Hin : In (Client.POSScreen.id product) (cart_ids cart)).
    { apply find_some in E. destruct E as [Hitem Hid]. apply String.eqb_eq in Hid.
      unfold cart_ids. apply in_map_iff. now exists existingItem. }
    assert (Hids : cart_ids
              (if PrimFloat.leb (Client.POSScreen.stock product)
                                (Client.POSScreen.quantity existingItem)
               then cart
               else map (fun item =>
                           if (Client.POSScreen.id (Client.POSScreen.product item)
                               =? Client.POSScreen.id product)%string
                           then {| Client.POSScreen.product := Client.POSScreen.product item;
                                   Client.POSScreen.quantity :=
                                     PrimFloat.add (Client.POSScreen.quantity item) 1 |}
                           else item) cart)
              = cart_ids cart).
    { destruct (PrimFloat.leb _ _); [reflexivity|].
      apply (cart_ids_map_quantity _
               (fun item => PrimFloat.add (Client.POSScreen.quantity item) 1)). }
    split; [intros _; exact Hids|]. split; [intros H; contradiction|].
    split; [now rewrite Hids|]. split; [now rewrite Hids|].
    intros Hnil. rewrite Hnil in Hids. simpl in Hids.
    rewrite <- Hids in Hin. contradiction.
  - pose proof (proj1 (find_id_None _ _) E) as Hnot.
    split; [intros H; contradiction|]. split; [reflexivity|].
    unfold cart_ids. rewrite map_app. simpl. fold (cart_ids cart).
    split; [|split].
    + intros Hnd. apply NoDup_app; [assumption | repeat constructor; intros [] |].
      intros x Hx [<-|[]]. contradiction.
    + apply in_or_app. right. now left.
    + now destruct cart.
Qed.

Lemma addToCart_one_line_per_product_witness :
  cart_ids (Client.POSScreen.addToCart pos_gadget cart_both) = cart_ids cart_both /\
  Client.POSScreen.addToCart pos_gadget cart_two_widgets = cart_both /\
  NoDup (cart_ids (Client.POSScreen.addToCart pos_widget cart_both)).
Proof.
  split; [|split].
  - apply (proj1 (addToCart_one_line_per_product pos_gadget cart_both)).
    simpl. auto.
  - apply (proj1 (proj2 (addToCart_one_line_per_product pos_gadget cart_two_widgets))).
    simpl. intros [H|[]]. discriminate.
  - apply (proj1 (proj2 (proj2 (addToCart_one_line_per_product pos_widget cart_both)))).
    repeat constructor; simpl; intuition discriminate.
Defined.

(** X19: [removeFromCart] drops exactly the lines of the given product and
    keeps the others in order; removing twice is removing once; and
    [updateCartItemQuantity] with a quantity of zero or less is this
    removal. *)
Theorem removeFromCart_exact (productId : string) (newQuantity : float)
    (cart : list Client.POSScreen.CartItem) :
  (forall item,
     In item (Client.POSScreen.removeFromCart productId cart) <->
     In item cart /\ Client.POSScreen.id (Client.POSScreen.product item) <> productId) /\
  ~ In productId (cart_ids (Client.POSScreen.removeFromCart productId cart)) /\
  Client.POSScreen.removeFromCart productId
    (Client.POSScreen.removeFromCart productId cart)
  = Client.POSScreen.removeFromCart productId cart /\
  (PrimFloat.leb newQuantity 0 = true ->
   Client.POSScreen.updateCartItemQuantity productId newQuantity cart
   = Client.POSScreen.removeFromCart productId cart).
Proof.
  unfold Client.POSScreen.removeFromCart. split; [|split; [|split]].
  - intros item. rewrite filter_In, negb_true_iff, String.eqb_neq. reflexivity.
  - unfold cart_ids. intros H. apply in_map_iff in H. destruct H as [item [Hid Hin]].
    apply filter_In in Hin. destruct Hin as [_ Hne].
    apply negb_true_iff, String.eqb_neq in Hne. contradiction.
  - induction cart as [|item cart IH]; simpl; [reflexivity|].
    destruct (negb _) eqn:E; simpl; [rewrite E|]; now rewrite ?IH.
  - intros Hle. unfold Client.POSScreen.updateCartItemQuantity. now rewrite Hle.
Qed.

Lemma removeFromCart_exact_witness :
  Client.POSScreen.updateCartItemQuantity "1" 0%float cart_both
  = Client.POSScreen.removeFromCart "1" cart_both.
Proof.
  apply (proj2 (proj2 (proj2 (removeFromCart_exact "1" 0%float cart_both)))).
  reflexivity.
Defined.

(** X20: [updateCartItemQuantity] with a quantity above zero keeps the cart
    lines and their order, changes only the lines of the given product, and
    gives them the smaller of the asked quantity and the stock the cart line
    remembers: never more than that stock. *)
Theorem updateCartItemQuantity_within_stock (productId : string) (newQuantity : float)
    (cart : list Client.POSScreen.CartItem) :
  PrimFloat.leb newQuantity 0 = false ->
  let cart' := Client.POSScreen.updateCartItemQuantity productId newQuantity cart in
  cart_ids cart' = cart_ids cart /\
  map Client.POSScreen.product cart' = map Client.POSScreen.product cart /\
  (forall item, In item cart ->
     Client.POSScreen.id (Client.POSScreen.product item) <> productId ->
     In item cart') /\
  (forall item, In item cart' ->
     Client.POSScreen.id (Client.POSScreen.product item) = productId ->
     Client.POSScreen.quantity item
     = Client.POSScreen.Math_min newQuantity
         (Client.POSScreen.stock (Client.POSScreen.product item)) /\
     (Client.isNaN newQuantity = false ->
      Client.isNaN (Client.POSScreen.stock (Client.POSScreen.product item)) = false ->
      PrimFloat.leb (Client.POSScreen.quantity item)
        (Client.POSScreen.stock (Client.POSScreen.product item)) = true)).
Proof.
  intros Hpos cart'. subst cart'.
  unfold Client.POSScreen.updateCartItemQuantity. rewrite Hpos. cbv zeta.
  split; [|split; [|split]].
  - apply (cart_ids_map_quantity productId
             (fun item => Client.POSScreen.Math_min newQuantity
                            (Client.POSScreen.stock (Client.POSScreen.product item)))).
  - rewrite map_map. apply map_ext. intros item.
    now destruct (Client.POSScreen.id (Client.POSScreen.product item) =? productId)%string.
  - intros item Hin Hne. apply in_map_iff. exists item. split; [|assumption].
    apply String.eqb_neq in Hne. now rewrite Hne.
  - intros item Hin Hid. apply in_map_iff in Hin. destruct Hin as [old [Hold Hin]].
    destruct (Client.POSScreen.id (Client.POSScreen.product old) =? productId)%string
      eqn:E.
    + subst item. simpl. split; [reflexivity|]. intros Hn Hs. now apply Math_min_le.
    + subst item. apply String.eqb_neq in E. contradiction.
Qed.

Lemma updateCartItemQuantity_within_stock_witness :
  cart_ids (Client.POSScreen.updateCartItemQuantity "2" 7%float cart_both)
  = cart_ids cart_both /\
  map Client.POSScreen.quantity
      (Client.POSScreen.updateCartItemQuantity "2" 7%float cart_both)
  = [2%float; 3%float].
Proof.
  split.
  - apply (proj1 (updateCartItemQuantity_within_stock "2" 7%float cart_both eq_refl)).
  - reflexivity.
Defined.

(** X21: checkout sends nothing for an empty cart and, for any other cart,
    one line per cart line, in cart order, with the cart's product ids,
    names, prices and quantities, payment method cash and no customer. *)
Theorem processTransaction_lines (cart : list Client.POSScreen.CartItem) :
  (cart = [] ->
   Client.POSScreen.processTransaction cart
   = Client.Alert "Empty Cart" "Please add items to cart before checkout") /\
  (cart <> [] ->
   exists data,
     Client.POSScreen.processTransaction cart = Client.Send data /\
     map Client.POSScreen.Item.product_id (Client.POSScreen.TransactionData.items data)
     = cart_ids cart /\
     map Client.POSScreen.Item.product_name (Client.POSScreen.TransactionData.items data)
     = map (fun item => Client.POSScreen.name (Client.POSScreen.product item)) cart /\
     map Client.POSScreen.Item.price (Client.POSScreen.TransactionData.items data)
     = map (fun item => Client.POSScreen.price (Client.POSScreen.product item)) cart /\
     map Client.POSScreen.Item.quantity (Client.POSScreen.TransactionData.items data)
     = map Client.POSScreen.quantity cart /\
     Client.POSScreen.TransactionData.payment_method data = "cash" /\
     Client.POSScreen.TransactionData.customer_name data = None).
Proof.
  split.
  - intros ->. reflexivity.
  - intros Hne. unfold Client.POSScreen.processTransaction.
    destruct cart as [|item cart]; [contradiction|].
    cbn [List.length Nat.eqb]. eexists. split; [reflexivity|].
    cbn [Client.POSScreen.TransactionData.items
         Client.POSScreen.TransactionData.payment_method
         Client.POSScreen.TransactionData.customer_name].
    unfold cart_ids. rewrite !map_map. repeat split.
Qed.

Lemma processTransaction_lines_witness :
  exists data,
    Client.POSScreen.processTransaction cart_both = Client.Send data /\
    map Client.POSScreen.Item.product_id (Client.POSScreen.TransactionData.items data)
    = ["1"; "2"] /\
    map Client.POSScreen.Item.quantity (Client.POSScreen.TransactionData.items data)
    = [2%float; 1%float].
Proof.
  destruct (proj2 (processTransaction_lines cart_both) ltac:(discriminate))
    as [data [Hsend [Hids [_ [_ [Hq _]]]]]].
  exists data. split; [exact Hsend|]. split; [exact Hids | exact Hq].
Defined.

(** ** Search *)

Lemma prefix_occurs (sub s : string) :
  prefix sub s = true <-> exists after, s = sub ++ after.
Proof.
  revert s. induction sub as [|a sub IH]; intros s.
  - split; [intros _; now exists s | intros _; now destruct s].
  - destruct s as [|b s].
    + split; [discriminate | intros [after H]; discriminate].
    + cbn [prefix]. destruct (ascii_dec a b) as [->|Hne].
      * split.
        -- intros H. apply IH in H. destruct H as [after H].
           exists after. simpl. now rewrite H.
        -- intros [after H]. apply IH. exists after. simpl in H. now injection H.
      * split; [discriminate|]. intros [after H]. simpl in H.
        injection H as H _. congruence.
Qed.

Lemma includes_occurs (s sub : string) :
  Client.POSScreen.includes s sub = true <-> occurs_in sub s.
Proof.
  unfold occurs_in. induction s as [|c s IH].
  - cbn [Client.POSScreen.includes]. rewrite orb_false_r, prefix_occurs. split.
    + intros [after H]. now exists "", after.
    + intros [before [after H]]. destruct before; [now exists after | discriminate].
  - cbn [Client.POSScreen.includes]. rewrite orb_true_iff, prefix_occurs, IH. split.
    + intros [[after H]|[before [after H]]].
      * now exists "", after.
      * exists (String c before), after. simpl. now rewrite H.
    + intros [before [after H]]. destruct before as [|b before].
      * left. now exists after.
      * right. exists before, after. simpl in H. now injection H.
Qed.

(** X22: the search box of the products and POS screens keeps exactly the
    products whose lower-cased name or category holds the lower-cased query
    as a run of consecutive characters, in their order; two queries with the
    same lower-case form give the same list, and a query whose lower-case
    form is empty keeps every product. *)
Theorem filteredProducts_search (toLowerCase : string -> string) (searchQuery : string)
    (products : list Client.POSScreen.Product) :
  (forall p,
     In p (Client.POSScreen.filteredProducts toLowerCase searchQuery products) <->
     In p products /\
     (occurs_in (toLowerCase searchQuery) (toLowerCase (Client.POSScreen.name p)) \/
      occurs_in (toLowerCase searchQuery) (toLowerCase (Client.POSScreen.category p)))) /\
  (forall other,
     toLowerCase other = toLowerCase searchQuery ->
     Client.POSScreen.filteredProducts toLowerCase other products
     = Client.POSScreen.filteredProducts toLowerCase searchQuery products) /\
  (toLowerCase searchQuery = "" ->
   Client.POSScreen.filteredProducts toLowerCase searchQuery products = products).
Proof.
  unfold Client.POSScreen.filteredProducts. split; [|split].
  - intros p. rewrite filter_In, orb_true_iff, !includes_occurs. reflexivity.
  - intros other H. now rewrite H.
  - intros H. rewrite H. apply forallb_filter_id. apply forallb_forall.
    intros p _. apply orb_true_iff. left. apply includes_occurs.
    exists "", (toLowerCase (Client.POSScreen.name p)). reflexivity.
Qed.

Lemma filteredProducts_search_witness :
  Client.POSScreen.filteredProducts latin_toLowerCase "WID" [pos_widget; pos_gadget]
  = Client.POSScreen.filteredProducts latin_toLowerCase "wid" [pos_widget; pos_gadget] /\
  Client.POSScreen.filteredProducts latin_toLowerCase "" [pos_widget; pos_gadget]
  = [pos_widget; pos_gadget] /\
  Client.POSScreen.filteredProducts latin_toLowerCase "WID" [pos_widget; pos_gadget]
  = [pos_widget].
Proof.
  split; [|split].
  - apply (proj1 (proj2 (filteredProducts_search latin_toLowerCase "wid"
                           [pos_widget; pos_gadget]))). reflexivity.
  - apply (proj2 (proj2 (filteredProducts_search latin_toLowerCase ""
                           [pos_widget; pos_gadget]))). reflexivity.
  - reflexivity.
Defined.

(** ** The edit form *)

Lemma validate_passes trim Number formData :
  trim (Client.FormData.name formData) <> "" ->
  Client.FormData.price formData <> "" ->
  Client.isNaN (Number (Client.FormData.price formData)) = false ->
  PrimFloat.leb (Number (Client.FormData.price formData)) 0 = false ->
  Client.FormData.stock formData <> "" ->
  Client.isNaN (Number (Client.FormData.stock formData)) = false ->
  PrimFloat.ltb (Number (Client.FormData.stock formData)) 0 = false ->
  Client.validate trim Number formData = None.
Proof.
  intros Hn Hp Hp1 Hp2 Hs Hs1 Hs2. unfold Client.validate, Client.empty.
  apply String.eqb_neq in Hn, Hp, Hs.
  now rewrite Hn, Hp, Hp1, Hp2, Hs, Hs1, Hs2.
Qed.

(** X23: the edit form sends the changed fields and no others: in the body it
    sends, the name (description, category) is present exactly when the
    form's differs from the loaded product's, and then holds the form's
    value; the price (stock) is present exactly when the form's number is
    not equal to the loaded one; and at least one key is present. *)
Theorem editProduct_sends_changes (trim : string -> string) (Number : string -> float)
    (product : Client.Product.t) (formData : Client.FormData.t)
    (updateData : Client.UpdateData.t) :
  Client.EditProductScreen.handleSubmit trim Number product formData
  = Client.Send updateData ->
  Client.UpdateData.name updateData
  = (if (trim (Client.FormData.name formData) =? Client.Product.name product)%string
     then None else Some (trim (Client.FormData.name formData))) /\
  Client.UpdateData.description updateData
  = (if (trim (Client.FormData.description formData)
         =? Client.Product.description product)%string
     then None else Some (trim (Client.FormData.description formData))) /\
  Client.UpdateData.category updateData
  = (if (Client.FormData.category formData =? Client.Product.category product)%string
     then None else Some (Client.FormData.category formData)) /\
  Client.UpdateData.price updateData
  = (if PrimFloat.eqb (Number (Client.FormData.price formData))
                      (Client.Product.price product)
     then None else Some (Number (Client.FormData.price formData))) /\
  Client.UpdateData.stock updateData
  = (if PrimFloat.eqb (Number (Client.FormData.stock formData))
                      (Client.Product.stock product)
     then None else Some (Number (Client.FormData.stock formData))) /\
  (1 <= Client.UpdateData.keys updateData)%nat.
Proof.
  unfold Client.EditProductScreen.handleSubmit.
  destruct (Client.validate trim Number formData); [discriminate|]. cbv zeta.
  match goal with
  | |- (if ?c then _ else _) = _ -> _ => destruct c eqn:K; [discriminate|]
  end.
  intros H. injection H as <-.
  apply Nat.eqb_neq in K. simpl in *.
  unfold Client.changed_string, Client.changed_number.
  repeat split;
    try match goal with
        | |- context [negb ?b] => now destruct b
        end.
  unfold Client.changed_string, Client.changed_number in K. lia.
Qed.

Lemma editProduct_sends_changes_witness :
  exists updateData,
    Client.EditProductScreen.handleSubmit plain_trim digits_Number client_gadget
      gadget_form = Client.Send updateData /\
    Client.UpdateData.name updateData = None /\
    Client.UpdateData.price updateData = Some 12%float /\
    Client.UpdateData.stock updateData = None.
Proof.
  eexists. split; [reflexivity|].
  destruct (editProduct_sends_changes plain_trim digits_Number client_gadget
              gadget_form _ eq_refl) as [Hname [_ [_ [Hprice [Hstock _]]]]].
  split; [exact Hname|]. split; [exact Hprice | exact Hstock].
Defined.

(** X24: saving the edit form without a change shows the No Changes alert
    only for a product that has an image.  For a product without image the
    form always sends a request once the checks pass, and when nothing was
    changed the body it builds holds the single key image, with no value. *)
Theorem editProduct_no_changes (trim : string -> string) (Number : string -> float)
    (product : Client.Product.t) (formData : Client.FormData.t) :
  Client.validate trim Number formData = None ->
  (Client.Product.image product = None ->
   exists updateData,
     Client.EditProductScreen.handleSubmit trim Number product formData
     = Client.Send updateData /\
     Client.UpdateData.image updateData
     = Some (Client.or_undefined (Client.FormData.image formData))) /\
  (unchanged trim Number product formData ->
   Client.Product.image product = Some (Client.FormData.image formData) ->
   Client.EditProductScreen.handleSubmit trim Number product formData
   = Client.Alert "No Changes" "No changes were made to the product") /\
  (unchanged trim Number product formData ->
   Client.Product.image product = None ->
   Client.FormData.image formData = "" ->
   Client.EditProductScreen.handleSubmit trim Number product formData
   = Client.Send
       {| Client.UpdateData.name := None; Client.UpdateData.description := None;
          Client.UpdateData.price := None; Client.UpdateData.stock := None;
          Client.UpdateData.category := None; Client.UpdateData.image := Some None |}).
Proof.
  intros Hvalid. unfold Client.EditProductScreen.handleSubmit. rewrite Hvalid.
  cbv zeta. split; [|split].
  - intros Himg. rewrite Himg.
    unfold Client.UpdateData.keys. cbn [Client.UpdateData.image Client.UpdateData.present].
    match goal with
    | |- exists u, (if (?n =? 0)%nat then _ else _) = _ /\ _ =>
        replace (n =? 0)%nat with false by (symmetry; apply Nat.eqb_neq; lia)
    end.
    eexists. split; reflexivity.
  - intros [Hn [Hd [Hp [Hs Hc]]]] Himg. rewrite Himg, Hn, Hd, Hc.
    unfold Client.changed_string, Client.changed_number.
    rewrite Hp, Hs, !String.eqb_refl. reflexivity.
  - intros [Hn [Hd [Hp [Hs Hc]]]] Himg Hempty. rewrite Himg, Hn, Hd, Hc, Hempty.
    unfold Client.changed_string, Client.changed_number.
    rewrite Hp, Hs, !String.eqb_refl. reflexivity.
Qed.

Lemma editProduct_no_changes_witness :
  Client.EditProductScreen.handleSubmit plain_trim digits_Number pictured_gadget
    pictured_form_loaded
  = Client.Alert "No Changes" "No changes were made to the product" /\
  Client.EditProductScreen.handleSubmit plain_trim digits_Number client_gadget
    gadget_form_loaded
  = Client.Send
      {| Client.UpdateData.name := None; Client.UpdateData.description := None;
         Client.UpdateData.price := None; Client.UpdateData.stock := None;
         Client.UpdateData.category := None; Client.UpdateData.image := Some None |}.
Proof.
  split.
  - apply (proj1 (proj2 (editProduct_no_changes plain_trim digits_Number
                           pictured_gadget pictured_form_loaded eq_refl))).
    + repeat split.
    + reflexivity.
  - apply (proj2 (proj2 (editProduct_no_changes plain_trim digits_Number
                           client_gadget gadget_form_loaded eq_refl))).
    + repeat split.
    + reflexivity.
    + reflexivity.
Defined.

(** * Properties of sequences of requests *)

(** X25: a PUT takes the active flag from its body on every call: after
    DELETE, a PUT on the same id whose body leaves out the active flag
    answers Ok with the product active again, and the product is back in
    the active-products list. *)
Theorem update_revives_deleted (now later : DateTime) (db : AppDbContext) (id : Z)
    (p : Product.t) (body : ProductBody) :
  FindAsync (Products db) id = Some p ->
  isActive body = None ->
  let deleted := fst (deleteProduct now db id) in
  let updated := updateProduct later deleted id (bind_Product later body) in
  (forall q, In q (listProducts deleted) -> Product.Id q <> id) /\
  exists p',
    snd updated = Ok p' /\
    getProduct (fst updated) id = Ok p' /\
    Product.Id p' = id /\
    Product.IsActive p' = true /\
    In p' (listProducts (fst updated)).
Proof.
  intros Hp Hbody deleted updated.
  assert (Hd : FindAsync (Products deleted) id = Some (deactivated now p))
    by now apply deleteProduct_row.
  split.
  - subst deleted. rewrite (deleteProduct_found now db id p Hp). simpl.
    intros q. apply listProducts_after_delete.
  - subst updated.
    rewrite (updateProduct_found later deleted id _ _ Hd).
    cbn [fst snd]. eexists. split; [reflexivity|].
    assert (Hfind : FindAsync (save id (merge later (bind_Product later body))
                                 (Products deleted)) id
                    = Some (merge later (bind_Product later body) (deactivated now p))).
    { rewrite FindAsync_save_same by auto with pos. now rewrite Hd. }
    split; [|split; [|split]].
    + unfold getProduct. cbn [with_Products Products]. now rewrite Hfind.
    + cbn [merge Product.Id deactivated]. now apply FindAsync_Some in Hp.
    + cbn [merge Product.IsActive bind_Product]. now rewrite Hbody.
    + unfold listProducts. cbn [with_Products Products]. apply filter_In. split.
      * now apply FindAsync_Some in Hfind.
      * cbn [merge Product.IsActive bind_Product]. now rewrite Hbody.
Qed.

Lemma update_revives_deleted_witness :
  exists p',
    getProduct
      (fst (updateProduct 300 (fst (deleteProduct 200 shop 1)) 1
              (bind_Product 300 price_only))) 1 = Ok p' /\
    Product.IsActive p' = true.
Proof.
  destruct (proj2 (update_revives_deleted 200 300 shop 1 widget price_only
                     eq_refl eq_refl))
    as [p' [_ [Hget [_ [Hact _]]]]].
  exists p'. split; assumption.
Defined.

Lemma well_keyed_handle now r db : well_keyed db -> well_keyed (handle now r db).
Proof.
  intros H. destruct r as [product|id update|id|transaction]; simpl.
  - now apply well_keyed_createProduct.
  - unfold updateProduct. destruct (FindAsync (Products db) id); [|exact H].
    simpl. apply well_keyed_with_Products; [|exact H].
    apply map_Id_save. auto with pos.
  - unfold deleteProduct. destruct (FindAsync (Products db) id); [|exact H].
    simpl. apply well_keyed_with_Products; [|exact H].
    apply map_Id_save. auto with pos.
  - now apply well_keyed_createTransaction.
Qed.

Lemma numbered_handle now r db : numbered db -> numbered (handle now r db).
Proof.
  intros H. destruct r as [product|id update|id|transaction]; simpl.
  - exact H.
  - now apply (numbered_catalog now db id update).
  - now apply (numbered_catalog now db id widget).
  - now apply createTransaction_numbered.
Qed.

Lemma none_in_future_handle now limit r db :
  now <= limit -> none_in_future limit db -> none_in_future limit (handle now r db).
Proof.
  intros Hle H. destruct r as [product|id update|id|transaction]; cbn [handle].
  - exact H.
  - unfold updateProduct. now destruct (FindAsync (Products db) id).
  - unfold deleteProduct. now destruct (FindAsync (Products db) id).
  - intros t Hin.
    destruct (createTransaction_stored now db transaction) as [t' [Ht' [_ [_ [_ Hc]]]]].
    rewrite Ht' in Hin. apply in_app_or in Hin.
    destruct Hin as [Hin|[<-|[]]]; [now apply H | lia].
Qed.

Lemma serve_invariant (P : AppDbContext -> Prop) (log : list (DateTime * request)) :
  (forall entry db, In entry log -> P db -> P (handle (fst entry) (snd entry) db)) ->
  forall db, P db -> P (serve log db).
Proof.
  unfold serve. induction log as [|entry log IH]; intros Hstep db Hdb; simpl.
  - exact Hdb.
  - apply IH.
    + intros e d He. apply Hstep. now right.
    + apply Hstep; [now left | exact Hdb].
Qed.

(** X26: whatever requests were served since the store was empty, the store
    is sound: no two products and no two transactions share an id, the
    transactions carry the numbers of their creation order, so (below 2^31 - 1
    of them) no two share a number, and no transaction is dated after the
    latest time a request was served at. *)
Theorem served_store_sound (log : list (DateTime * request)) (limit : DateTime) :
  let db := serve log empty_store in
  well_keyed db /\
  numbered db /\
  (Z.of_nat (List.length (Transactions db)) < 2147483648 ->
   NoDup (map Transaction.TransactionNumber (Transactions db))) /\
  ((forall entry, In entry log -> fst entry <= limit) -> none_in_future limit db).
Proof.
  intros db.
  assert (Hkeys : well_keyed db).
  { apply serve_invariant.
    - intros entry d _. apply well_keyed_handle.
    - unfold well_keyed. simpl. repeat split; constructor. }
  assert (Hnum : numbered db).
  { apply serve_invariant.
    - intros entry d _. apply numbered_handle.
    - intros i t Hi. now destruct i. }
  split; [exact Hkeys|]. split; [exact Hnum|]. split.
  - intros Hlen. apply NoDup_nth_error. intros i j Hi Heq.
    rewrite length_map in Hi. rewrite !nth_error_map in Heq.
    destruct (nth_error (Transactions db) i) as [t|] eqn:Ei;
      [|apply nth_error_None in Ei; lia].
    destruct (nth_error (Transactions db) j) as [u|] eqn:Ej; [|discriminate].
    simpl in Heq. injection Heq as Heq.
    apply (f_equal number_value) in Heq.
    rewrite (Hnum i t Ei), (Hnum j u Ej) in Heq.
    assert ((j < List.length (Transactions db))%nat)
      by (apply nth_error_Some; congruence).
    rewrite !number_value_of in Heq by lia. lia.
  - intros Htimes. apply serve_invariant.
    + intros entry d Hin. apply none_in_future_handle. now apply Htimes.
    + intros t [].
Qed.

Lemma served_store_sound_witness :
  none_in_future 300
    (serve [(100, PostProduct widget); (200, PostTransaction two_widgets);
            (300, DeleteProduct 1)] empty_store).
Proof.
  apply (proj2 (proj2 (proj2
           (served_store_sound
              [(100, PostProduct widget); (200, PostTransaction two_widgets);
               (300, DeleteProduct 1)] 300)))).
  intros entry [<-|[<-|[<-|[]]]]; simpl; lia.
Defined.

(** ** Instances on the shop *)

Lemma deleteProduct_is_soft_witness :
  getProduct (fst (deleteProduct 200 shop 1)) 2 = getProduct shop 2.
Proof.
  apply (proj1 (proj2 (proj2 (deleteProduct_is_soft 200 shop 1))) 2).
  discriminate.
Defined.

Lemma createTransaction_frame_witness :
  exists t,
    nth_error (Transactions one_sale) 0 = Some t /\
    nth_error (Transactions (fst (createTransaction 300 one_sale four_gadgets))) 0
    = Some t.
Proof.
  eexists. split; [reflexivity|].
  apply (proj2 (proj2 (createTransaction_frame 300 one_sale four_gadgets)) 0%nat).
  reflexivity.
Defined.

Lemma listCategories_distinct_witness :
  exists categories,
    listCategories shop = Ok categories /\
    In (Some "General") categories /\
    ~ In (Some "Electronics") categories.
Proof.
  destruct (listCategories_distinct shop) as [categories [Hres [_ Hin]]].
  exists categories. split; [exact Hres|]. split.
  - apply Hin. exists widget. repeat split. simpl. auto.
  - intros H. apply Hin in H. destruct H as [p [[<-|[<-|[]]] [Hact Hcat]]];
      discriminate.
Defined.
